(** * The users controller of the chat backend: social graph, presence and
    relationship aggregation

    A shallow embedding of [src/controllers/users.ts] (handlers [login],
    [logout], [deleteUser], [getRelatedServers], [getRelatedChannels] and
    [updateFriends]) together with the connection registry of [index.ts]
    and [src/socket/index.ts].

    The document store is modelled as three collections kept in natural
    (insertion) order; a request handler is a computation over the store
    that leaves a trace of the effects it performs on the HTTP response,
    on the session and on the error pipeline. Promise chains run to
    completion in program order. The store itself is taken to be
    available; what passport and express-validator decide is part of the
    request.

    A stored document holds object ids, which read back as 24 lower-case
    hexadecimal digits; the id of a request is text. [updateFriends] and
    [updateUser] cast that text as the driver does (module [Bson]): another
    spelling of a stored id addresses the same document, and text that is
    no object id makes the query or the conversion fail. The other
    handlers look the text up as it is, and their properties are stated
    for ids that are stored, or written as a stored id would be. *)

From stdpp Require Import base tactics option list strings gmap.
From Stdlib Require Import ZArith.

#[local] Set Warnings "-clear-no-such-hyp".

Local Open Scope Z_scope.
Local Open Scope string_scope.
Local Open Scope list_scope.

(** ** Data model *)

(** Mongo object ids travel through the controller as strings
    ([doc.id], [req.params.id], [c.toString()]). *)
Abbreviation ObjectId := string (only parsing).

Inductive Availability := Online | Offline.

Record User := mkUser {
  user_id : ObjectId;
  name : string;
  availability : Availability;
  friends : list ObjectId;
  invitesTo : list ObjectId;
  invitesFrom : list ObjectId;
  invitesToChannels : list ObjectId;
  joinedChannels : list ObjectId;
}.

Record Channel := mkChannel {
  channel_id : ObjectId;
  serverId : ObjectId;
}.

Record Server := mkServer {
  server_id : ObjectId;
  owner : ObjectId;
}.

Record Db := mkDb {
  users : list User;
  channels : list Channel;
  servers : list Server;
}.

#[global] Instance Availability_eq_dec : EqDecision Availability.
Proof. solve_decision. Defined.
#[global] Instance User_eq_dec : EqDecision User.
Proof. solve_decision. Defined.
#[global] Instance Channel_eq_dec : EqDecision Channel.
Proof. solve_decision. Defined.
#[global] Instance Server_eq_dec : EqDecision Server.
Proof. solve_decision. Defined.

(** ** Mongoose queries on a collection *)

Module Mongoose.

(** [Model.findById(id)] for an object id: the document whose [_id] is
    [id], or [null]. *)
Fixpoint findById {A} (key : A -> ObjectId) (id : ObjectId) (coll : list A)
  : option A :=
  match coll with
  | [] => None
  | d :: coll' => if decide (key d = id) then Some d else findById key id coll'
  end.

(** [Model.find({ _id: { $in: ids } })] and [Model.find({ f: v })]:
    the matching documents in natural order. *)
Definition find {A} (P : A -> Prop) `{!forall d, Decision (P d)}
    (coll : list A) : list A :=
  filter P coll.

(** [doc.save()] of a document that was read from the collection: the
    stored document with the same [_id] is replaced. *)
Definition save {A} (key : A -> ObjectId) (d : A) (coll : list A) : list A :=
  (fun d' => if decide (key d' = key d) then d else d') <$> coll.

(** [Model.findByIdAndRemove(id)]: removes the document [findById]
    would return. *)
Fixpoint findByIdAndRemove {A} (key : A -> ObjectId) (id : ObjectId)
    (coll : list A) : list A :=
  match coll with
  | [] => []
  | d :: coll' =>
      if decide (key d = id) then coll' else d :: findByIdAndRemove key id coll'
  end.

(** [populate] of an array path: every id is replaced by the document it
    refers to; ids that resolve to no document are dropped from the
    array. *)
Definition populateMany {A} (key : A -> ObjectId) (coll : list A)
    (ids : list ObjectId) : list A :=
  omap (fun id => findById key id coll) ids.

End Mongoose.

(** ** Populated documents and DTOs *)

(** A server with [owner] populated ([null] when the owner is gone). *)
Record FetchedServer := mkFetchedServer {
  fs_id : ObjectId;
  fs_owner : option User;
}.

(** A channel with [serverId] populated ([null] for an orphaned channel). *)
Record FetchedChannel := mkFetchedChannel {
  fc_id : ObjectId;
  fc_serverId : option FetchedServer;
}.

Record DTOUser := mkDTOUser {
  dto_user_id : ObjectId;
  dto_user_name : string;
  dto_user_availability : Availability;
}.

Record DTOServer := mkDTOServer {
  id : ObjectId;
  dto_owner : option DTOUser;
}.

#[global] Instance DTOUser_eq_dec : EqDecision DTOUser.
Proof. solve_decision. Defined.
#[global] Instance DTOServer_eq_dec : EqDecision DTOServer.
Proof. solve_decision. Defined.

(** Modelled from the spec: [utils/dto] is not among the sources. The spec
    gives an identity its unique id and availability and a server its id
    and its single owner; the DTOs carry these. *)
Definition userDTO (u : User) : DTOUser :=
  {| dto_user_id := user_id u;
     dto_user_name := name u;
     dto_user_availability := availability u |}.

Definition serverDTO (s : FetchedServer) : DTOServer :=
  {| id := fs_id s; dto_owner := userDTO <$> fs_owner s |}.

Definition populate_owner (db : Db) (s : Server) : FetchedServer :=
  {| fs_id := server_id s;
     fs_owner := Mongoose.findById user_id (owner s) (users db) |}.

Definition populate_serverId (db : Db) (c : Channel) : FetchedChannel :=
  {| fc_id := channel_id c;
     fc_serverId :=
       populate_owner db <$> Mongoose.findById server_id (serverId c) (servers db) |}.

(** [populate({ path, populate: { path: 'serverId', populate: { path: 'owner' } } })]
    on one of the user's channel arrays. *)
Definition populate_channels (db : Db) (ids : list ObjectId) : list FetchedChannel :=
  populate_serverId db <$> Mongoose.populateMany channel_id (channels db) ids.

(** ** The connection registry ([App.clients] in [index.ts]) *)

(** Modelled from the spec: [src/socket/types] is not among the sources. A
    connection binding is the ephemeral pair of a connection id and the
    identity using it (absent until the identity announces itself). *)
Record AppSocket := mkAppSocket {
  socket_id : string;
  socket_user : option ObjectId;
}.

(** [type AppClients = Record<string, AppSocket>]: the ordinary
    properties of the plain object [App.clients]. *)
Abbreviation AppClients := (gmap string AppSocket) (only parsing).

(** What a handler can read and write: the document store and the
    process-wide registry [App.clients]. *)
Record World := mkWorld {
  db : Db;
  clients : AppClients;
}.

(** The world after the users collection has been written. *)
Definition withUsers (us : list User) (w : World) : World :=
  {| db := {| users := us; channels := channels (db w); servers := servers (db w) |};
     clients := clients w |}.

Module App.
Definition getClients (w : World) : AppClients := clients w.
Definition getClient (id : string) (w : World) : option AppSocket :=
  clients w !! id.
Definition setClient (id : string) (value : AppSocket) (w : World) : World :=
  {| db := db w; clients := <[id := value]> (clients w) |}.
End App.

(** [io.on('connection', ...)] of [src/socket/index.ts]. *)
Definition onConnection (socket : AppSocket) (w : World) : World :=
  App.setClient (socket_id socket) socket w.

(** ** Effects of a request handler *)

Record Error := mkError {
  err_name : string;
  message : string;
  statusCode : option nat;
}.

Inductive Body :=
  | NoBody
  | Text (s : string)
  | JsonUser (user : option DTOUser)
  | JsonServers (msg : string) (servers : list (option DTOServer))
  | JsonFriends (messageInfo : string) (friends : list User)
  | JsonInfo (messageInfo : string)
  | JsonMessage (msg : string)
  | JsonValidationErrors.

Inductive Effect :=
  | Respond (status : nat) (body : Body)   (* res.status(..).json(..) / .end() *)
  | Next (err : Error)                     (* next(err) *)
  | SessionLogIn (uid : ObjectId)          (* req.logIn *)
  | SessionLogOut                          (* req.logout *)
  | LogIds (ids : list ObjectId)           (* console.log *)
  | LogChannels (cs : list Channel)        (* console.log *)
  | Raise (err : Error).                   (* exception nobody caught *)

#[global] Instance Error_eq_dec : EqDecision Error.
Proof. solve_decision. Defined.

(** A handler threads the store and the trace of effects, and may reject
    with an error, as a promise chain does. *)
Module Promise.

Definition St : Type := World * list Effect.
Definition t (A : Type) : Type := St -> St * (Error + A).

Definition resolve {A} (a : A) : t A := fun s => (s, inr a).
Definition reject {A} (e : Error) : t A := fun s => (s, inl e).

(** [p.then(k)] *)
Definition then_ {A B} (p : t A) (k : A -> t B) : t B :=
  fun s => match p s with
           | (s', inr a) => k a s'
           | (s', inl e) => (s', inl e)
           end.

(** [p.catch(h)] *)
Definition catch {A} (p : t A) (h : Error -> t A) : t A :=
  fun s => match p s with
           | (s', inl e) => h e s'
           | r => r
           end.

Definition emit (e : Effect) : t unit :=
  fun '(w, tr) => ((w, tr ++ [e]), inr tt).

Definition getDb : t Db := fun '(w, tr) => ((w, tr), inr (db w)).

Definition setUsers (us : list User) : t unit :=
  fun '(w, tr) => ((withUsers us w, tr), inr tt).

(** Running a handler on a request: an error that escapes every
    [catch] is raised to the caller. *)
Definition run (h : t unit) (w : World) : World * list Effect :=
  match h (w, []) with
  | ((w', tr), inr _) => (w', tr)
  | ((w', tr), inl e) => (w', tr ++ [Raise e])
  end.

End Promise.

Notation "x <- p ;; k" := (Promise.then_ p (fun x => k))
  (at level 100, p at next level, right associativity, only parsing).
Notation "p ;;; k" := (Promise.then_ p (fun _ => k))
  (at level 100, right associativity, only parsing).

(** The response helpers of express. *)
Definition res_json (status : nat) (body : Body) : Promise.t unit :=
  Promise.emit (Respond status body).
Definition res_end (status : nat) : Promise.t unit :=
  Promise.emit (Respond status NoBody).
(** [res.send(200).end()]: given a lone number, [send] takes it for the
    status and sends the status message as text. *)
Definition res_send_200 : Promise.t unit :=
  Promise.emit (Respond 200 (Text "OK")).
Definition next (err : Error) : Promise.t unit :=
  Promise.emit (Next err).

(** The queries of the three models as promises. *)
Definition User_findById (id : ObjectId) : Promise.t (option User) :=
  d <- Promise.getDb ;; Promise.resolve (Mongoose.findById user_id id (users d)).

Definition User_save (u : User) : Promise.t User :=
  d <- Promise.getDb ;;
  Promise.setUsers (Mongoose.save user_id u (users d)) ;;;
  Promise.resolve u.

(** Modelled from the spec: [utils/functions] is not among the sources.
    [handleDocumentNotFound] is the guard for the spec's NotFound case (a
    referenced identity is absent): it holds exactly of a document that was
    found. *)
Definition handleDocumentNotFound {A} (doc : option A) : bool :=
  match doc with Some _ => true | None => false end.

(** Modelled from the spec: [requestErrorHandler] of [utils/functions] is
    not among the sources. A storage failure surfaces in the 5xx class: the
    error is handed to [next] with status 500 unless it carries one. *)
Definition with500 (err : Error) : Error :=
  {| err_name := err_name err; message := message err;
     statusCode := Some (default 500%nat (statusCode err)) |}.
Definition requestErrorHandler (err : Error) : Promise.t unit :=
  next (with500 err).

(** ** JavaScript array and [Set] primitives used by the controller *)

Module Js.

(** [arr.findIndex(p)]: index of the first element satisfying [p],
    [-1] when there is none. *)
Fixpoint findIndex {A} (p : A -> bool) (arr : list A) : Z :=
  match arr with
  | [] => -1
  | x :: arr' =>
      if p x then 0
      else let r := findIndex p arr' in
           if decide (r = -1) then -1 else r + 1
  end.

(** [arr.filter((x, i) => p(x, i))], the callback also receiving the
    index. *)
Fixpoint filter_from {A} (p : A -> nat -> bool) (i : nat) (arr : list A)
  : list A :=
  match arr with
  | [] => []
  | x :: arr' =>
      if p x i then x :: filter_from p (S i) arr' else filter_from p (S i) arr'
  end.
Definition filteri {A} (p : A -> nat -> bool) (arr : list A) : list A :=
  filter_from p 0 arr.

(** [Boolean(x)] on an object-or-null value. *)
Definition Boolean {A} (x : option A) : Prop := is_Some x.

(** [new Set(arr)] followed by a spread: elements are added one by one,
    an element already present is not added again, and iteration is in
    insertion order. *)
Definition Set_add {A} `{EqDecision A} (s : list A) (x : A) : list A :=
  if decide (x ∈ s) then s else s ++ [x].
Definition Set_of {A} `{EqDecision A} (arr : list A) : list A :=
  foldl Set_add [] arr.

End Js.

(** ** [getRelatedServers] *)

(** The [.map(channel => ...).filter(Boolean)] step applied to one of the
    user's populated channel arrays. *)
Definition channelServers (chans : list FetchedChannel) : list (option DTOServer) :=
  filter Js.Boolean
    ((fun channel =>
        match fc_serverId channel with
        | None => None
        | Some server => Some (serverDTO server)
        end) <$> chans).

(** The callback of [findIndex]: [(s) => s && s.id === server.id]. *)
Definition sameId (server : DTOServer) (s : option DTOServer) : bool :=
  match s with
  | Some s => bool_decide (id s = id server)
  | None => false
  end.

(** The callback of the final [filter]: a non-null entry is kept when it
    is the first one of [allServers] with its id. *)
Definition isFirst (allServers : list (option DTOServer))
    (server : option DTOServer) (i : nat) : bool :=
  match server with
  | None => false
  | Some server =>
      bool_decide (Js.findIndex (sameId server) allServers = Z.of_nat i)
  end.

Definition uniqueServers (allServers : list (option DTOServer))
  : list (option DTOServer) :=
  Js.filteri (isFirst allServers) allServers.

Definition getRelatedServers (userId : ObjectId) : Promise.t unit :=
  user <- User_findById userId ;;
  d <- Promise.getDb ;;
  if handleDocumentNotFound user then
    match user with
    | None => Promise.resolve tt
    | Some user =>
        let invitesToChannels' := populate_channels d (invitesToChannels user) in
        let joinedChannels' := populate_channels d (joinedChannels user) in
        let servers :=
          populate_owner d <$> Mongoose.find (fun s => owner s = userId) (servers d) in
        let invitedServers := channelServers invitesToChannels' in
        let joinedServers := channelServers joinedChannels' in
        let ownServers := (fun server => Some (serverDTO server)) <$> servers in
        let allServers := invitedServers ++ joinedServers ++ ownServers in
        let uniqueAllServers := uniqueServers allServers in
        res_json 200 (JsonServers "Related servers fetched." uniqueAllServers)
    end
  else Promise.resolve tt.

(** *** The aggregation as the specification words it *)

Module RelatedServersSpec.

(** Drop later duplicates by server id, first seen wins. *)
Fixpoint firstSeen (seen : list ObjectId) (l : list DTOServer) : list DTOServer :=
  match l with
  | [] => []
  | s :: l' =>
      if decide (id s ∈ seen) then firstSeen seen l'
      else s :: firstSeen (id s :: seen) l'
  end.

(** The server behind a channel id, when both the channel and its
    server exist. *)
Definition serverOfChannel (d : Db) (cid : ObjectId) : option DTOServer :=
  c ← Mongoose.findById channel_id cid (channels d);
  s ← Mongoose.findById server_id (serverId c) (servers d);
  Some (serverDTO (populate_owner d s)).

Definition viaChannels (d : Db) (cids : list ObjectId) : list DTOServer :=
  omap (serverOfChannel d) cids.

Definition owned (d : Db) (uid : ObjectId) : list DTOServer :=
  (fun s => serverDTO (populate_owner d s))
    <$> filter (fun s => owner s = uid) (servers d).

(** Invited first, then joined, then owned. *)
Definition candidates (d : Db) (u : User) : list DTOServer :=
  viaChannels d (invitesToChannels u)
    ++ viaChannels d (joinedChannels u)
    ++ owned d (user_id u).

Definition relatedServers (d : Db) (u : User) : list DTOServer :=
  firstSeen [] (candidates d u).

End RelatedServersSpec.


(** ** [getRelatedChannels] *)

(** The handler starts the promise chain and answers at once: the response
    is sent by the synchronous body, the callbacks of the chain run
    afterwards and only print what they fetched. *)
Definition getRelatedChannels (userId : ObjectId) : Promise.t unit :=
  res_end 200 ;;;
  user <- User_findById userId ;;
  d <- Promise.getDb ;;
  if handleDocumentNotFound user then
    match user with
    | None => Promise.resolve tt
    | Some user =>
        let servers := Mongoose.find (fun s => owner s = userId) (servers d) in
        let ownServersIDs := server_id <$> servers in
        let inviteChannelsIDs := invitesToChannels user in
        let channels :=
          Mongoose.find
            (fun c => channel_id c ∈ inviteChannelsIDs \/ serverId c ∈ ownServersIDs)
            (channels d) in
        Promise.emit (LogIds inviteChannelsIDs) ;;;
        Promise.emit (LogChannels channels)
    end
  else Promise.resolve tt.

(** ** [deleteUser] *)

Definition User_findByIdAndRemove (id : ObjectId) : Promise.t unit :=
  d <- Promise.getDb ;;
  Promise.setUsers (Mongoose.findByIdAndRemove user_id id (users d)).

Definition couldNotFindUser : Error :=
  {| err_name := "Error"; message := "Could not find user."; statusCode := None |}.

Definition deleteUser (userId : ObjectId) : Promise.t unit :=
  Promise.catch
    (user <- User_findById userId ;;
     match user with
     | None => Promise.reject couldNotFindUser
     | Some _ =>
         User_findByIdAndRemove userId ;;;
         res_json 200 (JsonInfo "Deleted user.")
     end)
    (fun err => next (with500 err)).

(** ** [updateFriends] *)

(** Decoded JSON as it reaches the handler in [req.body.friends]. *)
Inductive JsAtom :=
  | JsNull
  | JsBool (b : bool)
  | JsNumber (n : Z)
  | JsString (s : string)
  | JsObject.

Inductive JsValue :=
  | JsUndefined
  | JsAtomic (a : JsAtom)
  | JsArray (items : list JsAtom).

(** A parsed query-string parameter ([req.query.action]). *)
Inductive QueryValue :=
  | QUndefined
  | QString (s : string)
  | QArray (items : list string).

#[global] Instance JsAtom_eq_dec : EqDecision JsAtom.
Proof. solve_decision. Defined.

Record UpdateFriendsReq := mkUpdateFriendsReq {
  params_id : ObjectId;
  body_friends : JsValue;
  query_action : QueryValue;
}.

Definition isHexDigit (c : Ascii.ascii) : bool :=
  let n := Ascii.nat_of_ascii c in
  ((48 <=? n) && (n <=? 57) || (97 <=? n) && (n <=? 102)
   || (65 <=? n) && (n <=? 70))%nat.

(** Modelled from the spec: the friends field must be a non-empty array of
    id-shaped strings. The validator of [models/user] is not among the
    sources; an id-shaped string is taken to be the 24 hexadecimal digits
    an object id is written with. *)
Definition isIdShaped (a : JsAtom) : bool :=
  match a with
  | JsString s =>
      bool_decide (String.length s = 24%nat)
      && forallb isHexDigit (String.list_ascii_of_string s)
  | _ => false
  end.

(** Modelled from the spec: [validateUserField] of [models/user] is not
    among the sources. For the friends field it accepts exactly the
    non-empty arrays of id-shaped strings; the spec constrains no other
    field of this request. *)
Definition validateUserField (value : JsValue) (field : string) : bool :=
  if decide (field = "friends") then
    match value with
    | JsArray (a :: items) => forallb isIdShaped (a :: items)
    | _ => false
    end
  else true.

Definition set_friends (fs : list ObjectId) (u : User) : User :=
  {| user_id := user_id u; name := name u; availability := availability u;
     friends := fs; invitesTo := invitesTo u; invitesFrom := invitesFrom u;
     invitesToChannels := invitesToChannels u; joinedChannels := joinedChannels u |}.

Definition set_availability (a : Availability) (u : User) : User :=
  {| user_id := user_id u; name := name u; availability := a;
     friends := friends u; invitesTo := invitesTo u; invitesFrom := invitesFrom u;
     invitesToChannels := invitesToChannels u; joinedChannels := joinedChannels u |}.

(** [.populate('friends')] *)
Definition populate_friends (d : Db) (u : User) : list User :=
  Mongoose.populateMany user_id (users d) (friends u).

Definition validationFailed (msg : string) : Error :=
  {| err_name := "Error"; message := msg; statusCode := None |}.

(** *** Object ids in requests *)

(** Ids reach the handlers as text. Where mongoose hands such a text to
    the driver ([findById] on a path id, a [$in] filter on [_id],
    [new mongoose.Types.ObjectId(id)]) it is cast to an object id; where
    the controller compares ids itself ([!==], [includes]) the texts are
    compared as they are. A stored id reads back ([doc.id],
    [oid.toString()]) as 24 lower-case hexadecimal digits. *)
Module Bson.

Definition isLowerHexDigit (c : Ascii.ascii) : bool :=
  let n := Ascii.nat_of_ascii c in
  ((48 <=? n) && (n <=? 57) || (97 <=? n) && (n <=? 102))%nat.

(** The text an object id is read back as. *)
Definition canonical (s : string) : bool :=
  bool_decide (String.length s = 24%nat)
  && forallb isLowerHexDigit (String.list_ascii_of_string s).

Definition lowerHexDigit (c : Ascii.ascii) : Ascii.ascii :=
  let n := Ascii.nat_of_ascii c in
  if ((65 <=? n) && (n <=? 70))%nat then Ascii.ascii_of_nat (n + 32) else c.

Fixpoint lowerHex (s : string) : string :=
  match s with
  | EmptyString => EmptyString
  | String c s' => String (lowerHexDigit c) (lowerHex s')
  end.

Definition hexDigit (n : nat) : Ascii.ascii :=
  Ascii.ascii_of_nat (if (n <? 10)%nat then 48 + n else 87 + n).

(** The hexadecimal text of the bytes of [s]. *)
Fixpoint hexOfBytes (s : string) : string :=
  match s with
  | EmptyString => EmptyString
  | String c s' =>
      let n := Ascii.nat_of_ascii c in
      String (hexDigit (n / 16)) (String (hexDigit (n mod 16)) (hexOfBytes s'))
  end.

Definition isAscii (c : Ascii.ascii) : bool := (Ascii.nat_of_ascii c <? 128)%nat.

(** [new ObjectId(s)] of the driver on a string: 12 characters of one
    byte each are taken as the bytes of the id, 24 hexadecimal digits (in
    either case) as its text; any other string is refused. *)
Definition castObjectId (s : string) : option ObjectId :=
  if bool_decide (String.length s = 12%nat) then
    if forallb isAscii (String.list_ascii_of_string s) then Some (hexOfBytes s)
    else None
  else if bool_decide (String.length s = 24%nat)
          && forallb isHexDigit (String.list_ascii_of_string s)
  then Some (lowerHex s)
  else None.

End Bson.

(** The rejection of a query whose id cannot be cast. The message of the
    library names the value, the path and the model (between quotation
    marks, left out here). *)
Definition castError : Error :=
  {| err_name := "CastError";
     message := "Cast to ObjectId failed for value (type string) at path _id for model User";
     statusCode := None |}.

(** [User.findById(id)] on the id of the request path: the text is cast
    before the collection is searched. *)
Definition User_findByIdCast (id : string) : Promise.t (option User) :=
  match Bson.castObjectId id with
  | None => Promise.reject castError
  | Some oid => User_findById oid
  end.

(** An element of the [$in] filter, cast. The validation lets only
    strings through. *)
Definition castAtom (a : JsAtom) : option ObjectId :=
  match a with
  | JsString s => Bson.castObjectId s
  | _ => None
  end.

(** [user.friends = value] followed by [user.save()]: mongoose writes the
    path only if the assignment marked it modified, which an assignment of
    an array deep-equal to the one the document holds does not. *)
Definition User_saveIf (modified : bool) (d : User) : Promise.t User :=
  if modified then User_save d else Promise.resolve d.

Definition updateFriends (req : UpdateFriendsReq) : Promise.t unit :=
  let userId := params_id req in
  let friendIds := body_friends req in
  let action := query_action req in
  if negb (validateUserField friendIds "friends") then
    next (validationFailed "Validation failed, entered data is incorrect.")
  else
    match action with
    | QString action =>
        if negb (bool_decide (action ∈ ["add"; "delete"])) then
          next (validationFailed
                  "Validation failed, `action` query parameter is required.")
        else
          match friendIds with
          | JsArray friendIds =>
              let friendIds := filter (fun id => id ≠ JsString userId) friendIds in
              Promise.catch
                (user <- User_findByIdCast userId ;;
                 d <- Promise.getDb ;;
                 match user with
                 | None => Promise.reject couldNotFindUser
                 | Some user =>
                     let friends' := populate_friends d user in
                     if decide (action = "delete") then
                       (* the filtered array of populated documents is
                          deep-equal to the populated one when nothing was
                          filtered out *)
                       let kept :=
                         filter (fun friend => JsString (user_id friend) ∉ friendIds)
                                friends' in
                       user <- User_saveIf (bool_decide (kept ≠ friends'))
                                 (set_friends (user_id <$> kept) user) ;;
                       d <- Promise.getDb ;;
                       res_json 200
                         (JsonFriends "Friends deleted!" (populate_friends d user))
                     else
                       match mapM castAtom friendIds with
                       | None =>
                           (* the chain of [User.find] is not returned to
                              the outer chain: its rejection reaches no
                              [catch] *)
                           Promise.emit (Raise castError)
                       | Some oids =>
                           let foundUsers :=
                             Mongoose.find (fun u => user_id u ∈ oids) (users d) in
                           let newFriends := user_id <$> foundUsers in
                           (* an array of ids is deep-equal to the array
                              of populated documents only when both are
                              empty *)
                           let assigned :=
                             Js.Set_of ((user_id <$> friends') ++ newFriends) in
                           user <- User_saveIf (bool_decide (assigned ≠ []))
                                     (set_friends assigned user) ;;
                           d <- Promise.getDb ;;
                           res_json 200
                             (JsonFriends "Friends added!" (populate_friends d user))
                       end
                 end)
                (fun err => next (with500 err))
          | _ =>
              Promise.reject
                {| err_name := "TypeError";
                   message := "friendIds.filter is not a function";
                   statusCode := None |}
          end
    | _ =>
        next (validationFailed
                "Validation failed, `action` query parameter is required.")
    end.

(** ** [login] and [logout] *)

(** What [passport.authenticate('local', ...)] hands to its callback. *)
Inductive Authenticated :=
  | AuthError (err : Error)
  | AuthNoUser (info_message : string)
  | AuthUser (user : User).

Record LoginReq := mkLoginReq {
  errors_isEmpty : bool;            (* validationResult(req).isEmpty() *)
  authenticate : Authenticated;
  logIn_error : option Error;       (* the error req.logIn reports, if any *)
}.

Definition login (req : LoginReq) : Promise.t unit :=
  if negb (errors_isEmpty req) then res_json 401 JsonValidationErrors
  else
    match authenticate req with
    | AuthError err => next err
    | AuthNoUser msg => res_json 401 (JsonMessage msg)
    | AuthUser user =>
        match logIn_error req with
        | Some err => next err
        | None =>
            Promise.emit (SessionLogIn (user_id user)) ;;;
            Promise.catch
              (user <- User_findById (user_id user) ;;
               match user with
               | None => Promise.reject couldNotFindUser
               | Some user =>
                   let user := set_availability Online user in
                   Promise.catch
                     (User_save user ;;;
                      res_json 200 (JsonUser (Some (userDTO user))))
                     requestErrorHandler
               end)
              requestErrorHandler
        end
    end.

Record LogoutReq := mkLogoutReq {
  req_user : option User;           (* the authenticated user of the session *)
  logout_error : option Error;      (* the error req.logout reports, if any *)
}.

Definition logout (req : LogoutReq) : Promise.t unit :=
  (if req_user req is None then res_send_200 else Promise.resolve tt) ;;;
  match req_user req with
  | None =>
      Promise.reject
        {| err_name := "TypeError";
           message := "Cannot destructure property 'id' of 'req.user' as it is undefined.";
           statusCode := None |}
  | Some u =>
      let id := user_id u in
      Promise.emit SessionLogOut ;;;
      (if logout_error req is Some err then next err else Promise.resolve tt) ;;;
      Promise.catch
        (user <- User_findById id ;;
         match user with
         | None => Promise.reject couldNotFindUser
         | Some user =>
             let user := set_availability Offline user in
             Promise.catch
               (User_save user ;;; res_end 200)
               requestErrorHandler
         end)
        requestErrorHandler
  end.

(** ** The friends array a valid bulk update assigns and stores *)

(** The candidate list after [friendIds.filter((id) => id !== userId)]. *)
Definition candidateIds (userId : string) (friendIds : list JsAtom) : list JsAtom :=
  filter (fun id => id ≠ JsString userId) friendIds.

(** The populated friends that [delete] keeps. *)
Definition keptFriends (d : Db) (userId : string) (friendIds : list JsAtom)
    (user : User) : list User :=
  filter (fun friend => JsString (user_id friend) ∉ candidateIds userId friendIds)
         (populate_friends d user).

(** The ids assigned to [user.friends] before [user.save()], by action;
    [oids] are the candidates as the [$in] filter casts them. *)
Definition assignedFriends (d : Db) (userId : string) (friendIds : list JsAtom)
    (oids : list ObjectId) (action : string) (user : User) : list ObjectId :=
  if decide (action = "delete") then user_id <$> keptFriends d userId friendIds user
  else
    Js.Set_of
      ((user_id <$> populate_friends d user)
         ++ (user_id <$> Mongoose.find (fun u => user_id u ∈ oids) (users d))).

(** Whether that assignment marks the path modified, so that [save]
    writes it. *)
Definition friendsModified (d : Db) (userId : string) (friendIds : list JsAtom)
    (oids : list ObjectId) (action : string) (user : User) : bool :=
  if decide (action = "delete") then
    bool_decide (keptFriends d userId friendIds user ≠ populate_friends d user)
  else bool_decide (assignedFriends d userId friendIds oids action user ≠ []).

(** The friends array of the target in the store after the update. *)
Definition storedFriends (d : Db) (userId : string) (friendIds : list JsAtom)
    (oids : list ObjectId) (action : string) (user : User) : list ObjectId :=
  if friendsModified d userId friendIds oids action user
  then assignedFriends d userId friendIds oids action user
  else friends user.

(** ** The claims that do not hold of the code, as they are worded *)

Module AsStated.

(** Bulk add stores the union of the existing friends and the candidate
    ids, the target's own id excluded and duplicates collapsed. *)
Definition bulkAddIsUnion (w : World) (userId : ObjectId) (friendIds : list JsAtom)
  : Prop :=
  exists u u',
    Mongoose.findById user_id userId (users (db w)) = Some u
    /\ Mongoose.findById user_id userId
         (users (db (Promise.run
                       (updateFriends
                          (mkUpdateFriendsReq userId (JsArray friendIds) (QString "add")))
                       w).1))
       = Some u'
    /\ NoDup (friends u')
    /\ forall x, x ∈ friends u'
                 <-> x ∈ friends u \/ (JsString x ∈ friendIds /\ x ≠ userId).

(** After the account [x] is deleted no stored identity references [x]. *)
Definition deleteCascades (w : World) (x : ObjectId) : Prop :=
  forall v, v ∈ users (db (Promise.run (deleteUser x) w).1) ->
            (x ∉ friends v) /\ (x ∉ invitesTo v) /\ (x ∉ invitesFrom v).

End AsStated.

(** ** Concrete stores *)

(** Object ids of the concrete stores, written as the 24 hexadecimal digits
    of an object id: identities [u], [v], [w]; channels [c1], [c2], [c3],
    [c9]; servers [s1], [s2] and the id [s9] of no server. *)
Module Ids.
Definition u : ObjectId := "0000000000000000000000a1".
Definition v : ObjectId := "0000000000000000000000a2".
Definition w : ObjectId := "0000000000000000000000a3".
Definition c1 : ObjectId := "0000000000000000000000c1".
Definition c2 : ObjectId := "0000000000000000000000c2".
Definition c3 : ObjectId := "0000000000000000000000c3".
Definition c9 : ObjectId := "0000000000000000000000c9".
Definition s1 : ObjectId := "0000000000000000000000f1".
Definition s2 : ObjectId := "0000000000000000000000f2".
Definition s9 : ObjectId := "0000000000000000000000f9".
End Ids.

(** The scenario of the specification: U owns S1 (channel C1 in S1), is
    invited to C2 in S2 and has joined C3 in S2; V, the owner of S2, lists
    U in each of its relationship sets. Two connections of U are live. *)
Module Scenario.
Definition U : User :=
  {| user_id := Ids.u; name := "U"; availability := Online; friends := [];
     invitesTo := []; invitesFrom := [];
     invitesToChannels := [Ids.c2]; joinedChannels := [Ids.c3] |}.
Definition V : User :=
  {| user_id := Ids.v; name := "V"; availability := Online; friends := [Ids.u];
     invitesTo := [Ids.u]; invitesFrom := [Ids.u];
     invitesToChannels := []; joinedChannels := [] |}.
Definition store : Db :=
  {| users := [U; V];
     channels := [mkChannel Ids.c1 Ids.s1; mkChannel Ids.c2 Ids.s2; mkChannel Ids.c3 Ids.s2];
     servers := [mkServer Ids.s1 Ids.u; mkServer Ids.s2 Ids.v] |}.
Definition world : World :=
  onConnection (mkAppSocket "sock2" (Some Ids.u))
    (onConnection (mkAppSocket "sock1" (Some Ids.u))
       {| db := store; clients := ∅ |}).
Definition S1 : DTOServer := mkDTOServer Ids.s1 (Some (userDTO U)).
Definition S2 : DTOServer := mkDTOServer Ids.s2 (Some (userDTO V)).
End Scenario.

(** W is invited to the orphaned channel C9 (its server S9 does not
    exist) and has joined C3 in S2. *)
Module Orphan.
Definition W : User :=
  {| user_id := Ids.w; name := "W"; availability := Offline; friends := [];
     invitesTo := []; invitesFrom := [];
     invitesToChannels := [Ids.c9]; joinedChannels := [Ids.c3] |}.
Definition store : Db :=
  {| users := [W; Scenario.V];
     channels := [mkChannel Ids.c9 Ids.s9; mkChannel Ids.c3 Ids.s2];
     servers := [mkServer Ids.s2 Ids.v] |}.
Definition world : World := {| db := store; clients := ∅ |}.
End Orphan.

(** Identities with id-shaped ids: A is a friend of B; no identity has the
    id [c]. *)
Module Friends.
Definition a : ObjectId := "aaaaaaaaaaaaaaaaaaaaaaaa".
Definition b : ObjectId := "bbbbbbbbbbbbbbbbbbbbbbbb".
Definition c : ObjectId := "cccccccccccccccccccccccc".
Definition e : ObjectId := "eeeeeeeeeeeeeeeeeeeeeeee".
Definition mk (i : ObjectId) (fs : list ObjectId) : User :=
  {| user_id := i; name := i; availability := Offline; friends := fs;
     invitesTo := []; invitesFrom := [];
     invitesToChannels := []; joinedChannels := [] |}.
Definition store : Db :=
  {| users := [mk a [b]; mk b [a]; mk e []]; channels := []; servers := [] |}.
Definition world : World := {| db := store; clients := ∅ |}.
End Friends.

(** ** The other handlers of the users controller *)

(** The JSON bodies of [getUsers], [getUser], [updateUser], [getFriends],
    [getInvitedToFriends] and [getInvitedFromFriends]. *)
Inductive Reply :=
  | UsersFetched (msg : string) (count : nat) (fetched : list DTOUser)
  | UserFetched (messageInfo : string) (user : DTOUser)
  | FriendsFetched (messageInfo : string) (fetched : list DTOUser)
  | InvitedToFetched (msg : string) (invitedToFriends : list DTOUser)
  | InvitedFromFetched (msg : string) (invitedFromFriends : list DTOUser).

Inductive Sent :=
  | Json (status : nat) (reply : Reply)    (* res.status(..).json(..) *)
  | ToNext (err : Error)                   (* next(err) *)
  | Unhandled (err : Error).               (* rejection nobody caught *)

(** The promise chains of these handlers, over the same world, leaving a
    trace of [Sent] events. *)
Module Chain.

Definition St : Type := World * list Sent.
Definition t (A : Type) : Type := St -> St * (Error + A).

Definition resolve {A} (a : A) : t A := fun s => (s, inr a).
Definition reject {A} (e : Error) : t A := fun s => (s, inl e).

Definition then_ {A B} (p : t A) (k : A -> t B) : t B :=
  fun s => match p s with
           | (s', inr a) => k a s'
           | (s', inl e) => (s', inl e)
           end.

Definition catch {A} (p : t A) (h : Error -> t A) : t A :=
  fun s => match p s with
           | (s', inl e) => h e s'
           | r => r
           end.

Definition emit (e : Sent) : t unit :=
  fun '(w, tr) => ((w, tr ++ [e]), inr tt).

Definition getDb : t Db := fun '(w, tr) => ((w, tr), inr (db w)).

Definition setUsers (us : list User) : t unit :=
  fun '(w, tr) => ((withUsers us w, tr), inr tt).

Definition run (h : t unit) (w : World) : World * list Sent :=
  match h (w, []) with
  | ((w', tr), inr _) => (w', tr)
  | ((w', tr), inl e) => (w', tr ++ [Unhandled e])
  end.

End Chain.

Notation "x <~ p ;; k" := (Chain.then_ p (fun x => k))
  (at level 100, p at next level, right associativity, only parsing).
Notation "p ;;~ k" := (Chain.then_ p (fun _ => k))
  (at level 100, right associativity, only parsing).

Definition json (status : nat) (reply : Reply) : Chain.t unit :=
  Chain.emit (Json status reply).

(** The [.catch] written out in [getUsers], [getUser] and [updateUser]:
    status 500 unless the error has one, then [next(err)]. *)
Definition catch500 (err : Error) : Chain.t unit :=
  Chain.emit (ToNext (with500 err)).

(** The [.catch((err) => requestErrorHandler(err, next))] of [getFriends]
    and its two siblings. [login] and [logout] call what
    [requestErrorHandler(err, next)] returns; here it is returned and not
    called, so [next] is not reached. *)
Definition catchUncalled (err : Error) : Chain.t unit :=
  Chain.resolve tt.

Definition findUser (id : ObjectId) : Chain.t (option User) :=
  d <~ Chain.getDb ;; Chain.resolve (Mongoose.findById user_id id (users d)).

Definition saveUser (u : User) : Chain.t User :=
  d <~ Chain.getDb ;;
  Chain.setUsers (Mongoose.save user_id u (users d)) ;;~
  Chain.resolve u.

Definition getUsers : Chain.t unit :=
  Chain.catch
    (d <~ Chain.getDb ;;
     let docsCount := length (users d) in
     d <~ Chain.getDb ;;
     let exportedUsers := userDTO <$> users d in
     json 200 (UsersFetched "Fetched users successfully." docsCount exportedUsers))
    catch500.

Definition getUser (userId : ObjectId) : Chain.t unit :=
  Chain.catch
    (user <~ findUser userId ;;
     match user with
     | None => Chain.reject couldNotFindUser
     | Some user => json 200 (UserFetched "User fetched." (userDTO user))
     end)
    catch500.

Definition getFriends (userId : ObjectId) : Chain.t unit :=
  Chain.catch
    (user <~ findUser userId ;;
     d <~ Chain.getDb ;;
     match user with
     | None => Chain.reject couldNotFindUser
     | Some user =>
         let exportedFriends := userDTO <$> populate_friends d user in
         json 200 (FriendsFetched "Friends fetched." exportedFriends)
     end)
    catchUncalled.

Definition getInvitedToFriends (userId : ObjectId) : Chain.t unit :=
  Chain.catch
    (user <~ findUser userId ;;
     d <~ Chain.getDb ;;
     match user with
     | None => Chain.reject couldNotFindUser
     | Some user =>
         let invitedToFriends :=
           userDTO <$> Mongoose.populateMany user_id (users d) (invitesTo user) in
         json 200 (InvitedToFetched "Users invited to friends fetched." invitedToFriends)
     end)
    catchUncalled.

Definition getInvitedFromFriends (userId : ObjectId) : Chain.t unit :=
  Chain.catch
    (user <~ findUser userId ;;
     d <~ Chain.getDb ;;
     match user with
     | None => Chain.reject couldNotFindUser
     | Some user =>
         let invitedFromFriends :=
           userDTO <$> Mongoose.populateMany user_id (users d) (invitesFrom user) in
         json 200
           (InvitedFromFetched "Users invited to friends fetched." invitedFromFriends)
     end)
    catchUncalled.

(** *** [updateUser] *)

(** [s.includes(sub)] on strings: [sub] occurs somewhere in [s]. *)
Fixpoint String_includes (s sub : string) : bool :=
  if String.prefix sub s then true
  else match s with
       | EmptyString => false
       | String _ s' => String_includes s' sub
       end.

(** [remove && remove.includes(path)] for the three shapes the query
    parser gives [req.query.remove]: absent, one value (a string, tested
    for a substring), several values (an array, tested for membership).
    The empty string is falsy. *)
Definition removes (remove : QueryValue) (path : string) : bool :=
  match remove with
  | QUndefined => false
  | QString s => negb (bool_decide (s = "")) && String_includes s path
  | QArray items => bool_decide (path ∈ items)
  end.

(** The strings of one relationship path that is [in req.body], after the
    [Set]: the stored ids as text, less the body's ids or followed by
    them. *)
Definition relationStrings (remove : QueryValue) (path : string)
    (current : list ObjectId) (ids : list string) : list string :=
  if removes remove path then
    let newValueOfStr := filter (fun id => id ∉ ids) current in
    Js.Set_of newValueOfStr
  else
    let newValueOfStr := current ++ ids in
    Js.Set_of newValueOfStr.

(** The branch of the schema loop for one relationship path: a path that
    is not in the body is left alone; otherwise each string that went
    through the [Set] is turned into an object id, which throws
    ([None]) on a string that is none. *)
Definition relationPath (remove : QueryValue) (path : string)
    (current : list ObjectId) (body : option (list string))
  : option (list ObjectId) :=
  match body with
  | None => Some current
  | Some ids => mapM Bson.castObjectId (relationStrings remove path current ids)
  end.

(** A request to [PATCH /users/:id] without an upload whose body carries
    a name and relationship arrays (the fields [User] has here), each
    possibly absent. *)
Record UpdateUserReq := mkUpdateUserReq {
  uu_id : string;
  uu_remove : QueryValue;
  uu_name : option string;
  uu_invitesFrom : option (list string);
  uu_invitesTo : option (list string);
  uu_friends : option (list string);
  uu_invitesToChannels : option (list string);
  uu_joinedChannels : option (list string);
}.

(** The schema loop: every path that is in the body is assigned; the loop
    throws as soon as one path does. *)
Definition applyBody (req : UpdateUserReq) (user : User) : option User :=
  let remove := uu_remove req in
  invitesFrom' ←
    relationPath remove "invitesFrom" (invitesFrom user) (uu_invitesFrom req);
  invitesTo' ← relationPath remove "invitesTo" (invitesTo user) (uu_invitesTo req);
  friends' ← relationPath remove "friends" (friends user) (uu_friends req);
  invitesToChannels' ←
    relationPath remove "invitesToChannels" (invitesToChannels user)
      (uu_invitesToChannels req);
  joinedChannels' ←
    relationPath remove "joinedChannels" (joinedChannels user)
      (uu_joinedChannels req);
  Some {| user_id := user_id user;
          name := default (name user) (uu_name req);
          availability := availability user;
          friends := friends';
          invitesTo := invitesTo';
          invitesFrom := invitesFrom';
          invitesToChannels := invitesToChannels';
          joinedChannels := joinedChannels' |}.

(** What [new mongoose.Types.ObjectId(id)] throws on a string that is no
    object id (the message is the driver's). *)
Definition bsonTypeError : Error :=
  {| err_name := "BSONTypeError";
     message := "Argument passed in must be a string of 12 bytes or a string of 24 hex characters or an integer";
     statusCode := None |}.

(** [User.findById(userId)] on the id of the request path. *)
Definition findUserCast (id : string) : Chain.t (option User) :=
  match Bson.castObjectId id with
  | None => Chain.reject castError
  | Some oid => findUser oid
  end.

Definition updateUser (req : UpdateUserReq) : Chain.t unit :=
  Chain.catch
    (user <~ findUserCast (uu_id req) ;;
     match user with
     | None => Chain.reject couldNotFindUser
     | Some user =>
         match applyBody req user with
         | None => Chain.reject bsonTypeError
         | Some user =>
             user <~ saveUser user ;;
             Chain.catch
               (json 200 (UserFetched "User updated!" (userDTO user)))
               catchUncalled
         end
     end)
    catch500.

(** *** Requests whose ids are written as they are read back *)

(** One relationship path after the schema loop when no conversion
    throws: the strings that went through the [Set]. *)
Definition relationAssigned (remove : QueryValue) (path : string)
    (current : list ObjectId) (body : option (list string)) : list string :=
  match body with
  | None => current
  | Some ids => relationStrings remove path current ids
  end.

(** The identity with every path of the body assigned, the relationship
    arrays as the strings that went through the [Set]. *)
Definition assignedPaths (req : UpdateUserReq) (user : User) : User :=
  let remove := uu_remove req in
  {| user_id := user_id user;
     name := default (name user) (uu_name req);
     availability := availability user;
     friends := relationAssigned remove "friends" (friends user) (uu_friends req);
     invitesTo :=
       relationAssigned remove "invitesTo" (invitesTo user) (uu_invitesTo req);
     invitesFrom :=
       relationAssigned remove "invitesFrom" (invitesFrom user) (uu_invitesFrom req);
     invitesToChannels :=
       relationAssigned remove "invitesToChannels" (invitesToChannels user)
         (uu_invitesToChannels req);
     joinedChannels :=
       relationAssigned remove "joinedChannels" (joinedChannels user)
         (uu_joinedChannels req) |}.

(** The ids an identity refers to, and the ids a body carries. *)
Definition relationIds (user : User) : list ObjectId :=
  invitesFrom user ++ invitesTo user ++ friends user
    ++ invitesToChannels user ++ joinedChannels user.

Definition bodyIds (req : UpdateUserReq) : list string :=
  default [] (uu_invitesFrom req) ++ default [] (uu_invitesTo req)
    ++ default [] (uu_friends req) ++ default [] (uu_invitesToChannels req)
    ++ default [] (uu_joinedChannels req).

(** Every id is written as an object id is read back: so are the ids a
    stored document holds, and the ids of a body may or may not be. *)
Definition canonicalRelations (user : User) : bool :=
  forallb Bson.canonical (relationIds user).

Definition canonicalBody (req : UpdateUserReq) : bool :=
  forallb Bson.canonical (bodyIds req).

(** ** Sequences of operations *)

(** A successful login or logout of the session's identity. *)
Definition presence (online : bool) (session : User) : Promise.t unit :=
  if online then
    login {| errors_isEmpty := true; authenticate := AuthUser session;
             logIn_error := None |}
  else logout {| req_user := Some session; logout_error := None |}.

(** The registry after the given [(id, socket)] pairs went through
    [App.setClient], first to last. *)
Definition setClients (writes : list (string * AppSocket)) (w : World) : World :=
  foldl (fun w '(id, value) => App.setClient id value w) w writes.

(** [App.clients] is a plain object. The keys it does not hold as
    ordinary properties of its own: [__proto__], whose assignment replaces
    the prototype, and the names every object inherits, which a lookup
    answers although nothing was stored under them. *)
Definition objectPrototypeKeys : list string :=
  ["__proto__"; "constructor"; "hasOwnProperty"; "isPrototypeOf";
   "propertyIsEnumerable"; "toLocaleString"; "toString"; "valueOf";
   "__defineGetter__"; "__defineSetter__"; "__lookupGetter__";
   "__lookupSetter__"].

(** The request [req] with another [remove] query parameter. *)
Definition withRemove (remove : QueryValue) (req : UpdateUserReq) : UpdateUserReq :=
  {| uu_id := uu_id req; uu_remove := remove; uu_name := uu_name req;
     uu_invitesFrom := uu_invitesFrom req; uu_invitesTo := uu_invitesTo req;
     uu_friends := uu_friends req;
     uu_invitesToChannels := uu_invitesToChannels req;
     uu_joinedChannels := uu_joinedChannels req |}.

(** The relationship paths of the schema loop. *)
Definition relationPaths : list string :=
  ["invitesFrom"; "invitesTo"; "friends"; "invitesToChannels"; "joinedChannels"].

(** The sockets that connected, first to last ([initSocket]'s
    connection handler on each). *)
Definition connections (sockets : list AppSocket) (w : World) : World :=
  foldl (fun w socket => onConnection socket w) w sockets.

(** Requests on the concrete stores. *)
Module Requests.
Definition addFriends : UpdateFriendsReq :=
  mkUpdateFriendsReq Friends.a
    (JsArray [JsString Friends.e; JsString Friends.c]) (QString "add").
Definition removeFriend : UpdateUserReq :=
  mkUpdateUserReq Friends.a (QArray ["friends"]) (Some "A") None None
    (Some [Friends.b]) None None.
Definition addTwo : UpdateUserReq :=
  mkUpdateUserReq Friends.a QUndefined None None None
    (Some [Friends.b; Friends.e]) None None.
Definition inviteU : UpdateUserReq :=
  mkUpdateUserReq Ids.v QUndefined None None (Some [Ids.u]) None (Some []) None.
Definition addMalformed : UpdateUserReq :=
  mkUpdateUserReq Friends.a QUndefined None None None
    (Some [Friends.e; "xyz"]) None None.
Definition addUpperCase (target : ObjectId) : UpdateUserReq :=
  mkUpdateUserReq target QUndefined None None None
    (Some ["BBBBBBBBBBBBBBBBBBBBBBBB"]) None None.
End Requests.

(** * Properties *)

(** ** Stepping a handler *)

Lemma run_then_findById {B} (uid : ObjectId) (k : option User -> Promise.t B) s :
  Promise.then_ (User_findById uid) k s
  = k (Mongoose.findById user_id uid (users (db s.1))) s.
Proof. by destruct s. Qed.

(** ** Queries *)

Section Queries.
Context {A : Type} (key : A -> ObjectId).

Lemma findById_Some id coll d :
  Mongoose.findById key id coll = Some d -> key d = id /\ d ∈ coll.
Proof.
  induction coll as [|x coll IH]; simpl; [done|].
  case_decide.
  - intros [= ->]. split; [done | apply list_elem_of_here].
  - intros [? ?]%IH. split; [done | by apply list_elem_of_further].
Qed.

Lemma findById_None id coll :
  Mongoose.findById key id coll = None <-> forall d, d ∈ coll -> key d ≠ id.
Proof.
  induction coll as [|x coll IH]; simpl.
  - split; [|done]. intros _ d Hd. by apply elem_of_nil in Hd.
  - case_decide as Hx.
    + split; [done|]. intros H. exfalso.
      apply (H x); [apply list_elem_of_here | done].
    + rewrite IH. split.
      * intros H d [->|Hd]%elem_of_cons; [done | by apply H].
      * intros H d Hd. by apply H, list_elem_of_further.
Qed.

Lemma findById_elem_of d coll :
  d ∈ coll -> is_Some (Mongoose.findById key (key d) coll).
Proof.
  intros Hd. destruct (Mongoose.findById key (key d) coll) eqn:E; [by eexists|].
  exfalso. by eapply findById_None.
Qed.

Lemma save_length d coll : length (Mongoose.save key d coll) = length coll.
Proof. apply length_fmap. Qed.

Lemma save_lookup_ne d coll i d' :
  coll !! i = Some d' -> key d' ≠ key d ->
  Mongoose.save key d coll !! i = Some d'.
Proof.
  intros Hi Hne. unfold Mongoose.save. rewrite list_lookup_fmap, Hi. simpl.
  by rewrite decide_False.
Qed.

Lemma findById_save d id coll :
  Mongoose.findById key id coll = Some d -> forall d', key d' = id ->
  Mongoose.findById key id (Mongoose.save key d' coll) = Some d'.
Proof.
  intros Hf d' <-. induction coll as [|x coll IH]; simpl in *; [done|].
  case_decide as Hx.
  - by rewrite decide_True.
  - rewrite decide_False by done. by apply IH.
Qed.

Lemma findByIdAndRemove_other id coll d :
  d ∈ coll -> key d ≠ id -> d ∈ Mongoose.findByIdAndRemove key id coll.
Proof.
  induction coll as [|x coll IH]; simpl; [done|].
  intros [->|Hd]%elem_of_cons Hne.
  - rewrite decide_False by done. apply list_elem_of_here.
  - case_decide; [done|]. apply list_elem_of_further. by apply IH.
Qed.

Lemma findByIdAndRemove_sublist id coll :
  sublist (Mongoose.findByIdAndRemove key id coll) coll.
Proof.
  induction coll as [|x coll IH]; simpl; [done|].
  case_decide; [by apply sublist_cons | by apply sublist_skip].
Qed.

End Queries.

(** ** [findIndex] and the duplicate filter *)

Section FindIndex.
Context {A : Type} (p : A -> bool).

Lemma findIndex_range arr :
  Js.findIndex p arr = -1 \/ 0 <= Js.findIndex p arr.
Proof.
  induction arr as [|x arr IH]; simpl; [by left|].
  destruct (p x); [right; lia|].
  case_decide; [by left | right; lia].
Qed.

(** The element at position [length pre] is the one [findIndex] reports
    exactly when nothing before it satisfies the predicate. *)
Lemma findIndex_at pre x suf :
  p x = true ->
  Js.findIndex p (pre ++ x :: suf) = Z.of_nat (length pre)
  <-> Forall (fun y => p y = false) pre.
Proof.
  intros Hx. induction pre as [|a pre IH]; simpl.
  - rewrite Hx. split; [by constructor | done].
  - destruct (p a) eqn:Ha.
    + split; [lia|]. intros H. apply Forall_cons in H as [H _]. congruence.
    + pose proof (findIndex_range (pre ++ x :: suf)) as Hr.
      case_decide as Hm.
      * split; [lia|]. intros H. apply Forall_cons in H as [_ H].
        apply IH in H. lia.
      * split.
        -- intros H. constructor; [done|]. apply IH. lia.
        -- intros H. apply Forall_cons in H as [_ H]. apply IH in H. lia.
Qed.
End FindIndex.

Section FirstSeen.
Import RelatedServersSpec.

Lemma uniqueServers_unfold allServers :
  uniqueServers allServers = Js.filter_from (isFirst allServers) 0 allServers.
Proof. reflexivity. Qed.

Lemma sameId_Forall server (pre : list DTOServer) :
  Forall (fun y => sameId server y = false) (Some <$> pre)
  <-> id server ∉ id <$> pre.
Proof.
  induction pre as [|a pre IH]; simpl.
  - split; [intros _ H; by apply elem_of_nil in H | constructor].
  - rewrite Forall_cons, IH, not_elem_of_cons. unfold sameId at 1.
    rewrite bool_decide_eq_false. naive_solver.
Qed.

Lemma filter_from_firstSeen l pre seen allServers :
  allServers = (Some <$> pre) ++ (Some <$> l) ->
  (forall k, k ∈ seen <-> k ∈ id <$> pre) ->
  Js.filter_from (isFirst allServers) (length pre) (Some <$> l)
  = Some <$> firstSeen seen l.
Proof.
  revert pre seen. induction l as [|x l IH]; intros pre seen Hall Hseen; [done|].
  assert (Hnext : allServers = (Some <$> (pre ++ [x])) ++ (Some <$> l)).
  { rewrite Hall, fmap_app, fmap_cons. simpl. by rewrite <- app_assoc. }
  assert (Hlen : length (pre ++ [x]) = S (length pre)).
  { rewrite length_app. simpl. lia. }
  assert (Hfirst : isFirst allServers (Some x) (length pre) = true
                   <-> id x ∉ seen).
  { unfold isFirst. rewrite bool_decide_eq_true, Hall, Hseen, fmap_cons.
    rewrite <- sameId_Forall, <- (length_fmap Some pre).
    apply findIndex_at. simpl. by apply bool_decide_eq_true. }
  rewrite fmap_cons. cbn [Js.filter_from firstSeen].
  destruct (decide (id x ∈ seen)) as [Hin|Hin].
  - destruct (isFirst allServers (Some x) (length pre)) eqn:E.
    + exfalso. by apply Hfirst.
    + rewrite <- Hlen. apply IH; [done|].
      intros k. rewrite fmap_app, elem_of_app, <- Hseen. simpl.
      rewrite list_elem_of_singleton. split; [tauto|].
      intros [?| ->]; done.
  - apply Hfirst in Hin as ->. rewrite fmap_cons. f_equal.
    rewrite <- Hlen. apply IH; [done|].
    intros k. rewrite fmap_app, elem_of_cons, elem_of_app, <- Hseen. simpl.
    rewrite list_elem_of_singleton. tauto.
Qed.

(** The duplicate filter of the handler is first-seen-wins. *)
Lemma uniqueServers_firstSeen l :
  uniqueServers (Some <$> l) = Some <$> firstSeen [] l.
Proof.
  rewrite uniqueServers_unfold.
  apply (filter_from_firstSeen l [] []); [done|]. intros k. simpl. done.
Qed.

Lemma firstSeen_ext seen seen' l :
  (forall k, k ∈ seen <-> k ∈ seen') -> firstSeen seen l = firstSeen seen' l.
Proof.
  revert seen seen'. induction l as [|x l IH]; intros seen seen' H; simpl; [done|].
  destruct (decide (id x ∈ seen)) as [Hx|Hx];
    destruct (decide (id x ∈ seen')) as [Hx'|Hx']; try (exfalso; naive_solver).
  - by apply IH.
  - f_equal. apply IH. intros k. rewrite !elem_of_cons. naive_solver.
Qed.

Lemma firstSeen_app seen l1 l2 :
  firstSeen seen (l1 ++ l2)
  = firstSeen seen l1 ++ firstSeen ((id <$> l1) ++ seen) l2.
Proof.
  revert seen. induction l1 as [|x l1 IH]; intros seen; simpl; [done|].
  destruct (decide (id x ∈ seen)) as [Hx|Hx].
  - rewrite IH. f_equal. apply firstSeen_ext. intros k.
    rewrite elem_of_cons, !elem_of_app. naive_solver.
  - simpl. f_equal. rewrite IH. f_equal. apply firstSeen_ext. intros k.
    rewrite elem_of_cons, !elem_of_app, elem_of_cons. naive_solver.
Qed.

Lemma firstSeen_sublist seen l : sublist (firstSeen seen l) l.
Proof.
  revert seen. induction l as [|x l IH]; intros seen; simpl; [done|].
  case_decide; [by apply sublist_cons | by apply sublist_skip].
Qed.

Lemma firstSeen_fresh seen l s : s ∈ firstSeen seen l -> id s ∉ seen.
Proof.
  revert seen. induction l as [|x l IH]; intros seen; simpl.
  - intros H. by apply elem_of_nil in H.
  - case_decide as Hx; [by apply IH|].
    intros [->|Hs]%elem_of_cons; [done|].
    apply IH in Hs. rewrite not_elem_of_cons in Hs. tauto.
Qed.

Lemma firstSeen_NoDup seen l : NoDup (id <$> firstSeen seen l).
Proof.
  revert seen. induction l as [|x l IH]; intros seen; simpl; [constructor|].
  case_decide as Hx; [by apply IH|].
  simpl. constructor; [|by apply IH].
  intros (s & Hid & Hs)%list_elem_of_fmap.
  apply firstSeen_fresh in Hs. rewrite not_elem_of_cons in Hs. naive_solver.
Qed.

Lemma firstSeen_complete seen l s :
  s ∈ l -> id s ∉ seen -> id s ∈ id <$> firstSeen seen l.
Proof.
  revert seen. induction l as [|x l IH]; intros seen; simpl.
  - intros H. by apply elem_of_nil in H.
  - intros Hs Hfresh. apply elem_of_cons in Hs.
    destruct (decide (id x ∈ seen)) as [Hx|Hx].
    + destruct Hs as [->|Hs]; [done | by apply IH].
    + simpl. destruct (decide (id s = id x)) as [->|Hne];
        [apply list_elem_of_here|].
      apply list_elem_of_further. destruct Hs as [->|Hs]; [done|].
      apply IH; [done|]. rewrite not_elem_of_cons. tauto.
Qed.

(** Every server kept is the first entry of the input with its id. *)
Lemma firstSeen_earliest seen l s :
  s ∈ firstSeen seen l ->
  exists l1 l2, l = l1 ++ s :: l2 /\ id s ∉ id <$> l1.
Proof.
  revert seen. induction l as [|x l IH]; intros seen; simpl.
  - intros H. by apply elem_of_nil in H.
  - case_decide as Hx.
    + intros Hs. pose proof (firstSeen_fresh _ _ _ Hs) as Hfresh.
      apply IH in Hs as (l1 & l2 & -> & Hl1).
      exists (x :: l1), l2. split; [done|]. simpl.
      rewrite not_elem_of_cons. split; [congruence | done].
    + intros [->|Hs]%elem_of_cons.
      * exists [], l. split; [done|]. simpl. intros H. by apply elem_of_nil in H.
      * pose proof (firstSeen_fresh _ _ _ Hs) as Hfresh.
        rewrite not_elem_of_cons in Hfresh.
        apply IH in Hs as (l1 & l2 & -> & Hl1).
        exists (x :: l1), l2. split; [done|]. simpl.
        rewrite not_elem_of_cons. tauto.
Qed.

(** The populated channel arrays give the servers behind the channel
    ids, orphaned channels dropped. *)
Lemma channelServers_viaChannels d cids :
  channelServers (populate_channels d cids) = Some <$> viaChannels d cids.
Proof.
  unfold channelServers, populate_channels, viaChannels, Mongoose.populateMany.
  induction cids as [|cid cids IH]; [done|].
  cbn [omap list_omap]. unfold serverOfChannel at 1.
  destruct (Mongoose.findById channel_id cid (channels d)) as [c|]; [|exact IH].
  rewrite !fmap_cons. cbn [mbind option_bind populate_serverId fc_serverId].
  destruct (Mongoose.findById server_id (serverId c) (servers d)) as [s|].
  - cbn [fmap option_fmap option_map].
    rewrite filter_cons_True by (by eexists). by rewrite IH.
  - cbn [fmap option_fmap option_map].
    rewrite filter_cons_False by (by intros [? ?]). exact IH.
Qed.

Lemma getRelatedServers_run w uid u :
  Mongoose.findById user_id uid (users (db w)) = Some u ->
  Promise.run (getRelatedServers uid) w
  = (w, [Respond 200 (JsonServers "Related servers fetched."
                        (Some <$> relatedServers (db w) u))]).
Proof.
  intros Hu. pose proof (findById_Some _ _ _ _ Hu) as [Hid _].
  unfold Promise.run, getRelatedServers.
  rewrite run_then_findById. simpl. rewrite Hu. simpl.
  rewrite !channelServers_viaChannels.
  unfold relatedServers, candidates, owned, Mongoose.find, res_json, Promise.emit.
  rewrite <- uniqueServers_firstSeen, !fmap_app, Hid.
  rewrite <- !list_fmap_compose. done.
Qed.

End FirstSeen.

(** ** Related servers *)

Section RelatedServers.
Import RelatedServersSpec.

Lemma candidates_exist d u s :
  s ∈ candidates d u -> is_Some (Mongoose.findById server_id (id s) (servers d)).
Proof.
  unfold candidates, viaChannels, owned. rewrite !elem_of_app.
  assert (Hvia : forall cids : list string, s ∈ omap (serverOfChannel d) cids ->
                 is_Some (Mongoose.findById server_id (id s) (servers d))).
  { intros cids (cid & _ & Hs)%list_elem_of_omap. unfold serverOfChannel in Hs.
    destruct (Mongoose.findById channel_id cid (channels d)) as [c|]; [|done].
    simpl in Hs.
    destruct (Mongoose.findById server_id (serverId c) (servers d)) as [sv|] eqn:E;
      [|done].
    injection Hs as <-. simpl.
    apply findById_Some in E as [_ Hin]. by apply findById_elem_of. }
  intros [H|[H|H]]; [by eapply Hvia | by eapply Hvia |].
  apply list_elem_of_fmap in H as (sv & -> & Hsv).
  apply list_elem_of_filter in Hsv as [_ Hsv]. simpl.
  by apply findById_elem_of.
Qed.

Lemma viaChannels_reaches d cids cid c sv :
  cid ∈ cids ->
  Mongoose.findById channel_id cid (channels d) = Some c ->
  Mongoose.findById server_id (serverId c) (servers d) = Some sv ->
  serverDTO (populate_owner d sv) ∈ viaChannels d cids.
Proof.
  intros Hcid Hc Hsv. apply list_elem_of_omap. exists cid. split; [done|].
  unfold serverOfChannel. rewrite Hc. simpl. by rewrite Hsv.
Qed.

(** C1. For an identity found in the store, the handler answers 200 with
    the first-seen-wins deduplication of: the servers behind the pending
    channel invites, then those behind the joined channels, then the owned
    servers. No server id occurs twice; every reachable server id occurs;
    the answer splits into an invited, a joined and an owned part, each in
    the order of its source; and every entry is the earliest entry of the
    concatenation with its id. *)
Theorem getRelatedServers_dedup_first_seen (w : World) (uid : ObjectId) (u : User) :
  Mongoose.findById user_id uid (users (db w)) = Some u ->
  let invited := viaChannels (db w) (invitesToChannels u) in
  let joined := viaChannels (db w) (joinedChannels u) in
  let own := owned (db w) uid in
  let result := firstSeen [] (invited ++ joined ++ own) in
  Promise.run (getRelatedServers uid) w
  = (w, [Respond 200 (JsonServers "Related servers fetched." (Some <$> result))])
  /\ NoDup (id <$> result)
  /\ (forall s, s ∈ invited ++ joined ++ own -> id s ∈ id <$> result)
  /\ (exists fromInvited fromJoined fromOwn,
        result = fromInvited ++ fromJoined ++ fromOwn
        /\ sublist fromInvited invited
        /\ sublist fromJoined joined
        /\ sublist fromOwn own)
  /\ (forall s, s ∈ result ->
        exists before after,
          invited ++ joined ++ own = before ++ s :: after
          /\ id s ∉ id <$> before).
Proof.
  intros Hu invited joined own result.
  pose proof (findById_Some _ _ _ _ Hu) as [Hid _].
  assert (Hres : result = relatedServers (db w) u).
  { unfold result, relatedServers, candidates, invited, joined, own.
    by rewrite Hid. }
  split; [|split; [|split; [|split]]].
  - rewrite Hres. by apply getRelatedServers_run.
  - apply firstSeen_NoDup.
  - intros s Hs. apply firstSeen_complete; [done|]. intros H.
    by apply elem_of_nil in H.
  - unfold result. rewrite !firstSeen_app.
    eexists _, _, _. split; [reflexivity|].
    split; [|split]; apply firstSeen_sublist.
  - intros s Hs. by eapply firstSeen_earliest.
Qed.

Lemma getRelatedServers_dedup_first_seen_witness :
  Promise.run (getRelatedServers Ids.u) Scenario.world
  = (Scenario.world,
     [Respond 200 (JsonServers "Related servers fetched."
                     [Some Scenario.S2; Some Scenario.S1])]).
Proof.
  destruct (getRelatedServers_dedup_first_seen Scenario.world Ids.u Scenario.U)
    as [Hrun _]; [reflexivity|].
  rewrite Hrun. reflexivity.
Defined.

(** C6. A channel of the identity whose server does not exist makes the
    handler neither fail nor answer with a hole: the answer is still 200,
    holds no null entry and no entry for the missing server, and still
    holds the server of every channel of the identity whose server exists
    and every server the identity owns. *)
Theorem getRelatedServers_skips_dangling (w : World) (uid : ObjectId) (u : User) :
  Mongoose.findById user_id uid (users (db w)) = Some u ->
  exists result,
    Promise.run (getRelatedServers uid) w
    = (w, [Respond 200 (JsonServers "Related servers fetched." result)])
    /\ (None ∉ result)
    /\ (forall cid c,
          cid ∈ invitesToChannels u ++ joinedChannels u ->
          Mongoose.findById channel_id cid (channels (db w)) = Some c ->
          Mongoose.findById server_id (serverId c) (servers (db w)) = None ->
          forall s, Some s ∈ result -> id s ≠ serverId c)
    /\ (forall cid c sv,
          cid ∈ invitesToChannels u ++ joinedChannels u ->
          Mongoose.findById channel_id cid (channels (db w)) = Some c ->
          Mongoose.findById server_id (serverId c) (servers (db w)) = Some sv ->
          exists s, Some s ∈ result /\ id s = server_id sv)
    /\ (forall sv, sv ∈ servers (db w) -> owner sv = uid ->
          exists s, Some s ∈ result /\ id s = server_id sv).
Proof.
  intros Hu. pose proof (findById_Some _ _ _ _ Hu) as [Hid _].
  exists (Some <$> relatedServers (db w) u).
  assert (Hback : forall k, k ∈ id <$> relatedServers (db w) u ->
                  exists s, Some s ∈ Some <$> relatedServers (db w) u /\ id s = k).
  { intros k (s & -> & Hs)%list_elem_of_fmap. exists s. split; [|done].
    apply list_elem_of_fmap. by exists s. }
  assert (Hall : forall s, s ∈ candidates (db w) u ->
                 id s ∈ id <$> relatedServers (db w) u).
  { intros s Hs. apply firstSeen_complete; [done|]. intros H.
    by apply elem_of_nil in H. }
  split; [by apply getRelatedServers_run|].
  split; [|split; [|split]].
  - intros (s & ? & _)%list_elem_of_fmap. done.
  - intros cid c _ _ Hnone s (s' & [= <-] & Hs)%list_elem_of_fmap Heq.
    assert (s ∈ candidates (db w) u) as [sv Hsv]%candidates_exist.
    { eapply elem_of_sublist; [exact Hs | apply firstSeen_sublist]. }
    rewrite Heq in Hsv. congruence.
  - intros cid c sv Hcid Hc Hsv.
    destruct (Hback (server_id sv)) as (s & Hs & Hids); [|by exists s].
    change (server_id sv) with (id (serverDTO (populate_owner (db w) sv))).
    apply Hall. unfold candidates. rewrite !elem_of_app.
    apply elem_of_app in Hcid as [Hcid|Hcid];
      [left | right; left]; by eapply viaChannels_reaches.
  - intros sv Hsv Hown.
    destruct (Hback (server_id sv)) as (s & Hs & Hids); [|by exists s].
    change (server_id sv) with (id (serverDTO (populate_owner (db w) sv))).
    apply Hall. unfold candidates, owned. rewrite !elem_of_app. right; right.
    apply list_elem_of_fmap. exists sv. split; [done|].
    apply list_elem_of_filter. by rewrite Hid.
Qed.

Lemma getRelatedServers_skips_dangling_witness :
  exists result,
    Promise.run (getRelatedServers Ids.w) Orphan.world
    = (Orphan.world, [Respond 200 (JsonServers "Related servers fetched." result)])
    /\ (None ∉ result)
    /\ (forall s, Some s ∈ result -> id s ≠ Ids.s9)
    /\ (exists s, Some s ∈ result /\ id s = Ids.s2).
Proof.
  destruct (getRelatedServers_skips_dangling Orphan.world Ids.w Orphan.W)
    as (result & Hrun & Hnull & Hdangling & Hkept & _); [reflexivity|].
  exists result. split; [exact Hrun|]. split; [exact Hnull|]. split.
  - apply (Hdangling Ids.c9 (mkChannel Ids.c9 Ids.s9));
      [apply list_elem_of_here | reflexivity | reflexivity].
  - apply (Hkept Ids.c3 (mkChannel Ids.c3 Ids.s2) (mkServer Ids.s2 Ids.v));
      [apply list_elem_of_further, list_elem_of_here | reflexivity | reflexivity].
Defined.

End RelatedServers.

(** ** JavaScript [Set]s *)

Section Sets.

Lemma Set_add_spec {A} `{EqDecision A} (acc : list A) (y : A) :
  NoDup acc ->
  NoDup (Js.Set_add acc y) /\ forall x, x ∈ Js.Set_add acc y <-> x ∈ acc \/ x = y.
Proof.
  intros Hacc. unfold Js.Set_add. case_decide as Hy.
  - split; [done|]. intros x. split; [tauto|]. intros [?| ->]; done.
  - split.
    + apply NoDup_app. split; [done|]. split; [|apply NoDup_singleton].
      intros x Hx ->%list_elem_of_singleton. done.
    + intros x. by rewrite elem_of_app, list_elem_of_singleton.
Qed.

Lemma Set_of_acc {A} `{EqDecision A} (arr acc : list A) :
  NoDup acc ->
  NoDup (foldl Js.Set_add acc arr)
  /\ forall x, x ∈ foldl Js.Set_add acc arr <-> x ∈ acc \/ x ∈ arr.
Proof.
  revert acc. induction arr as [|y arr IH]; intros acc Hacc; simpl.
  - split; [done|]. intros x. rewrite elem_of_nil. tauto.
  - destruct (Set_add_spec acc y Hacc) as [Hnd Hin].
    destruct (IH _ Hnd) as [Hnd' Hin']. split; [done|].
    intros x. rewrite Hin', Hin, elem_of_cons. tauto.
Qed.

(** A JavaScript [Set] collapses duplicates and keeps every element. *)
Lemma Set_of_spec {A} `{EqDecision A} (arr : list A) :
  NoDup (Js.Set_of arr) /\ forall x, x ∈ Js.Set_of arr <-> x ∈ arr.
Proof.
  destruct (Set_of_acc arr [] (NoDup_nil_2)) as [Hnd Hin]. split; [done|].
  intros x. unfold Js.Set_of. rewrite Hin, elem_of_nil. tauto.
Qed.

End Sets.

(** ** More on [Set], [save] and [populate] *)

Section MoreLists.

Lemma foldl_Set_add_absorb {A} `{EqDecision A} (arr acc : list A) :
  (forall x, x ∈ arr -> x ∈ acc) -> foldl Js.Set_add acc arr = acc.
Proof.
  induction arr as [|y arr IH]; intros Hsub; [done|]. simpl.
  unfold Js.Set_add at 2. rewrite decide_True by (apply Hsub, list_elem_of_here).
  apply IH. intros x Hx. by apply Hsub, list_elem_of_further.
Qed.

Lemma foldl_Set_add_fresh {A} `{EqDecision A} (arr acc : list A) :
  NoDup arr -> (forall x, x ∈ arr -> x ∉ acc) ->
  foldl Js.Set_add acc arr = acc ++ arr.
Proof.
  revert acc. induction arr as [|y arr IH]; intros acc Hnd Hfresh; simpl.
  - by rewrite app_nil_r.
  - apply NoDup_cons in Hnd as [Hy Hnd].
    unfold Js.Set_add at 2.
    rewrite decide_False by (apply Hfresh, list_elem_of_here).
    rewrite IH; [by rewrite <- app_assoc | done |].
    intros x Hx [Hacc| ->%list_elem_of_singleton]%elem_of_app; [|done].
    by apply (Hfresh x); [apply list_elem_of_further|].
Qed.

(** A duplicate-free array goes through a [Set] unchanged. *)
Lemma Set_of_NoDup {A} `{EqDecision A} (arr : list A) :
  NoDup arr -> Js.Set_of arr = arr.
Proof.
  intros Hnd. unfold Js.Set_of. rewrite foldl_Set_add_fresh; [done..|].
  intros x _ Hx. by apply elem_of_nil in Hx.
Qed.

(** Appending elements that are already there changes nothing. *)
Lemma Set_of_absorb {A} `{EqDecision A} (arr more : list A) :
  NoDup arr -> (forall x, x ∈ more -> x ∈ arr) -> Js.Set_of (arr ++ more) = arr.
Proof.
  intros Hnd Hsub. unfold Js.Set_of. rewrite foldl_app.
  fold (Js.Set_of arr). rewrite Set_of_NoDup by done.
  by apply foldl_Set_add_absorb.
Qed.

Lemma foldl_Set_add_filter {A} `{EqDecision A} (P : A -> Prop)
    `{!forall x, Decision (P x)} (arr acc : list A) :
  foldl Js.Set_add (filter P acc) (filter P arr)
  = filter P (foldl Js.Set_add acc arr).
Proof.
  revert acc. induction arr as [|y arr IH]; intros acc; [done|].
  simpl. rewrite <- IH. destruct (decide (P y)) as [Hy|Hy].
  - rewrite filter_cons_True by done. simpl. f_equal.
    unfold Js.Set_add. destruct (decide (y ∈ acc)) as [Hin|Hin].
    + rewrite decide_True; [done|]. by apply list_elem_of_filter.
    + rewrite decide_False; [|by intros [_ ?]%list_elem_of_filter].
      rewrite filter_app, filter_cons_True by done. done.
  - rewrite filter_cons_False by done. f_equal.
    unfold Js.Set_add. case_decide; [done|].
    rewrite filter_app, filter_cons_False by done. by rewrite app_nil_r.
Qed.

(** Filtering before or after the [Set] gives the same array. *)
Lemma Set_of_filter {A} `{EqDecision A} (P : A -> Prop)
    `{!forall x, Decision (P x)} (arr : list A) :
  Js.Set_of (filter P arr) = filter P (Js.Set_of arr).
Proof. apply (foldl_Set_add_filter P arr []). Qed.

Lemma filter_all {A} (P : A -> Prop) `{!forall x, Decision (P x)} (l : list A) :
  (forall x, x ∈ l -> P x) -> filter P l = l.
Proof.
  induction l as [|x l IH]; intros Hall; [done|].
  rewrite filter_cons_True by (apply Hall, list_elem_of_here).
  f_equal. apply IH. intros y Hy. by apply Hall, list_elem_of_further.
Qed.

Context {A : Type} (key : A -> ObjectId).

Lemma save_save d coll :
  Mongoose.save key d (Mongoose.save key d coll) = Mongoose.save key d coll.
Proof.
  unfold Mongoose.save. rewrite <- list_fmap_compose. apply list_fmap_ext.
  intros i x _. simpl. destruct (decide (key x = key d)); [by rewrite decide_True|].
  by rewrite decide_False.
Qed.

(** A later save of the same document id overrides an earlier one. *)
Lemma save_override d1 d2 coll :
  key d1 = key d2 ->
  Mongoose.save key d2 (Mongoose.save key d1 coll) = Mongoose.save key d2 coll.
Proof.
  intros Hk. unfold Mongoose.save. rewrite <- list_fmap_compose.
  apply list_fmap_ext. intros i x _. simpl. rewrite Hk.
  destruct (decide (key x = key d2)); [by rewrite decide_True|].
  by rewrite decide_False.
Qed.

Lemma save_keys d coll : key <$> Mongoose.save key d coll = key <$> coll.
Proof.
  unfold Mongoose.save. rewrite <- list_fmap_compose. apply list_fmap_ext.
  intros i x _. simpl. by case_decide.
Qed.

Lemma findById_is_Some id coll :
  is_Some (Mongoose.findById key id coll) <-> id ∈ key <$> coll.
Proof.
  split.
  - intros [d [<- Hd]%findById_Some]. apply list_elem_of_fmap. by exists d.
  - intros (d & -> & Hd)%list_elem_of_fmap. by apply findById_elem_of.
Qed.

Lemma findById_save_is_Some d id coll :
  is_Some (Mongoose.findById key id (Mongoose.save key d coll))
  <-> is_Some (Mongoose.findById key id coll).
Proof. by rewrite !findById_is_Some, save_keys. Qed.

Lemma findById_save_ne d id coll :
  key d ≠ id ->
  Mongoose.findById key id (Mongoose.save key d coll) = Mongoose.findById key id coll.
Proof.
  intros Hne. induction coll as [|x coll IH]; simpl; [done|].
  destruct (decide (key x = key d)) as [Hx|Hx].
  - rewrite decide_False by done. rewrite decide_False by congruence. done.
  - destruct (decide (key x = id)); [done|]. done.
Qed.

(** Ids read back from populated documents are the ids that resolve, in
    the order of the array. *)
Lemma populateMany_keys coll (ids : list ObjectId) :
  key <$> Mongoose.populateMany key coll ids
  = filter (fun id => is_Some (Mongoose.findById key id coll)) ids.
Proof.
  unfold Mongoose.populateMany. induction ids as [|id ids IH]; [done|].
  cbn [omap list_omap].
  destruct (Mongoose.findById key id coll) as [d|] eqn:E.
  - rewrite filter_cons_True by (by rewrite E; eexists).
    rewrite fmap_cons, <- IH. apply findById_Some in E as [-> _]. done.
  - rewrite filter_cons_False by (rewrite E; by intros [? ?]). done.
Qed.

Lemma filter_ids (Q : ObjectId -> Prop) `{!forall x, Decision (Q x)}
    (P : A -> Prop) `{!forall d, Decision (P d)} (coll : list A) :
  (forall d, P d <-> Q (key d)) ->
  key <$> filter P coll = filter Q (key <$> coll).
Proof.
  intros HPQ. induction coll as [|x coll IH]; [done|]. rewrite fmap_cons.
  destruct (decide (P x)) as [Hx|Hx].
  - rewrite !filter_cons_True by (done || by apply HPQ). by rewrite fmap_cons, IH.
  - rewrite !filter_cons_False by (done || by rewrite <- HPQ). done.
Qed.

End MoreLists.

(** ** Object ids *)

Section ObjectIds.

Lemma lowerHexDigit_spec c :
  Bson.isLowerHexDigit c = true ->
  isHexDigit c = true /\ Bson.lowerHexDigit c = c.
Proof.
  destruct c as [[] [] [] [] [] [] [] []]; vm_compute; intros H;
    try discriminate H; split; reflexivity.
Qed.

Lemma lowerHex_canonical s :
  forallb Bson.isLowerHexDigit (String.list_ascii_of_string s) = true ->
  forallb isHexDigit (String.list_ascii_of_string s) = true /\ Bson.lowerHex s = s.
Proof.
  induction s as [|c s IH]; [done|].
  cbn [String.list_ascii_of_string forallb Bson.lowerHex].
  intros [Hc Hs]%andb_true_iff.
  destruct (lowerHexDigit_spec c Hc) as [-> ->].
  destruct (IH Hs) as [-> ->]. done.
Qed.

(** The text an object id is read back as is cast to that id. *)
Lemma castObjectId_canonical s :
  Bson.canonical s = true -> Bson.castObjectId s = Some s.
Proof.
  unfold Bson.canonical, Bson.castObjectId. intros [Hlen Hs]%andb_true_iff.
  apply bool_decide_eq_true in Hlen.
  destruct (lowerHex_canonical s Hs) as [Hhex Hlow].
  rewrite bool_decide_eq_false_2 by (rewrite Hlen; lia).
  rewrite (bool_decide_eq_true_2 _ Hlen), Hhex. cbn. by rewrite Hlow.
Qed.

(** An id-shaped string is cast to its lower-case text. *)
Lemma castAtom_idShaped a : isIdShaped a = true -> is_Some (castAtom a).
Proof.
  destruct a as [| | |s|]; try done. cbn [isIdShaped castAtom].
  unfold Bson.castObjectId. intros H. rewrite H.
  apply andb_true_iff in H as [Hlen _]. apply bool_decide_eq_true in Hlen.
  rewrite bool_decide_eq_false_2 by (rewrite Hlen; lia). by eexists.
Qed.

Lemma mapM_elem_of {A B} (f : A -> option B) (l : list A) (k : list B) y :
  mapM f l = Some k -> y ∈ k <-> exists x, x ∈ l /\ f x = Some y.
Proof.
  intros H%mapM_Some_1. induction H as [|x y' l k Hxy HF IH].
  - split; [by intros ?%elem_of_nil|]. by intros (x & ?%elem_of_nil & _).
  - rewrite elem_of_cons, IH. split.
    + intros [->|(x0 & ? & ?)].
      * exists x. split; [apply list_elem_of_here | done].
      * exists x0. split; [by apply list_elem_of_further | done].
    + intros (x0 & [->|?]%elem_of_cons & Hf); [left; congruence | right; eauto].
Qed.

End ObjectIds.

(** ** Bulk friend update *)

Section UpdateFriends.

Lemma populate_friends_ids d u x :
  x ∈ user_id <$> populate_friends d u
  <-> x ∈ friends u /\ is_Some (Mongoose.findById user_id x (users d)).
Proof.
  unfold populate_friends, Mongoose.populateMany. rewrite list_elem_of_fmap. split.
  - intros (v & -> & (i & Hi & Hv)%list_elem_of_omap).
    apply findById_Some in Hv as Hv'. destruct Hv' as [-> _].
    split; [done | by eexists].
  - intros [Hx [v Hv]]. exists v. apply findById_Some in Hv as Hv'.
    destruct Hv' as [<- _]. split; [done|].
    apply list_elem_of_omap. eauto.
Qed.

Lemma found_ids d (oids : list ObjectId) x :
  x ∈ user_id <$> Mongoose.find (fun u => user_id u ∈ oids) (users d)
  <-> x ∈ oids /\ is_Some (Mongoose.findById user_id x (users d)).
Proof.
  unfold Mongoose.find. rewrite list_elem_of_fmap. split.
  - intros (v & -> & [Hc Hv]%list_elem_of_filter).
    split; [done | by apply findById_elem_of].
  - intros [Hc [v Hv]]. apply findById_Some in Hv as [<- Hv].
    exists v. split; [done|]. by apply list_elem_of_filter.
Qed.

Lemma candidateIds_spec uid (ids : list JsAtom) x :
  JsString x ∈ candidateIds uid ids <-> JsString x ∈ ids /\ x ≠ uid.
Proof.
  unfold candidateIds. rewrite list_elem_of_filter. split.
  - intros [Hne Hin]. split; [done|]. congruence.
  - intros [Hin Hne]. split; [|done]. congruence.
Qed.

Lemma validateUserField_friends value :
  validateUserField value "friends" = true ->
  exists a items, value = JsArray (a :: items)
                  /\ forallb isIdShaped (a :: items) = true.
Proof.
  unfold validateUserField. rewrite decide_True by done.
  destruct value as [| |[|a items]]; try done. eauto.
Qed.

(** Every candidate that passed the validation can be cast: the [$in]
    filter holds the ids the candidates other than the literal path id
    are cast to. *)
Lemma validated_candidates uid ids :
  validateUserField (JsArray ids) "friends" = true ->
  exists oids,
    mapM castAtom (candidateIds uid ids) = Some oids
    /\ forall x, x ∈ oids
                 <-> exists c, JsString c ∈ ids /\ c ≠ uid
                               /\ Bson.castObjectId c = Some x.
Proof.
  intros (a & items & [= ->] & Hall)%validateUserField_friends.
  assert (is_Some (mapM castAtom (candidateIds uid (a :: items)))) as [oids Hoids].
  { apply mapM_is_Some, Forall_forall. intros c [_ Hc]%list_elem_of_filter.
    apply castAtom_idShaped. rewrite forallb_forall in Hall.
    by apply Hall, list_elem_of_In. }
  exists oids. split; [done|]. intros x. rewrite (mapM_elem_of _ _ _ _ Hoids). split.
  - intros (c & Hc & Hx). destruct c as [| | |s|]; try done. exists s.
    apply candidateIds_spec in Hc as [? ?]. done.
  - intros (c & Hc & Hne & Hx). exists (JsString c).
    split; [by apply candidateIds_spec | done].
Qed.

(** A request that passes both validations, on a stored identity, assigns
    the recomputed friends, saves the identity if that changed the array
    and answers 200 with the populated result. *)
Lemma updateFriends_valid_run w uid oid ids oids action u :
  validateUserField (JsArray ids) "friends" = true ->
  action ∈ ["add"; "delete"] ->
  Bson.castObjectId uid = Some oid ->
  mapM castAtom (candidateIds uid ids) = Some oids ->
  Mongoose.findById user_id oid (users (db w)) = Some u ->
  let user' := set_friends (assignedFriends (db w) uid ids oids action u) u in
  let w' := if friendsModified (db w) uid ids oids action u
            then withUsers (Mongoose.save user_id user' (users (db w))) w
            else w in
  Promise.run (updateFriends (mkUpdateFriendsReq uid (JsArray ids) (QString action))) w
  = (w', [Respond 200
            (JsonFriends
               (if decide (action = "delete") then "Friends deleted!"
                else "Friends added!")
               (populate_friends (db w') user'))]).
Proof.
  intros Hvalid Haction Hcast Hoids Hu. unfold Promise.run, updateFriends.
  cbn [params_id body_friends query_action]. rewrite Hvalid.
  rewrite (bool_decide_eq_true_2 _ Haction). cbn [negb].
  unfold Promise.catch, User_findByIdCast. rewrite Hcast, run_then_findById.
  cbn [fst db]. rewrite Hu.
  change (filter (fun id => id ≠ JsString uid) ids) with (candidateIds uid ids).
  unfold friendsModified, assignedFriends, keptFriends.
  destruct (decide (action = "delete")) as [Hd|Hd].
  - cbv beta iota zeta delta [Promise.then_ Promise.getDb].
    destruct (bool_decide _); reflexivity.
  - rewrite Hoids. cbv beta iota zeta delta [Promise.then_ Promise.getDb].
    destruct (bool_decide _); reflexivity.
Qed.

(** Whatever the request, either the handler leaves the world as it was,
    or the request passed the validations, addresses a stored identity and
    assigns it a friends array that marks the path modified. *)
Lemma updateFriends_cases w req :
  (Promise.run (updateFriends req) w).1 = w
  \/ exists uid ids action oid oids u,
       req = mkUpdateFriendsReq uid (JsArray ids) (QString action)
       /\ validateUserField (JsArray ids) "friends" = true
       /\ action ∈ ["add"; "delete"]
       /\ Bson.castObjectId uid = Some oid
       /\ mapM castAtom (candidateIds uid ids) = Some oids
       /\ Mongoose.findById user_id oid (users (db w)) = Some u
       /\ friendsModified (db w) uid ids oids action u = true.
Proof.
  destruct req as [uid value action].
  destruct (validateUserField value "friends") eqn:Hvalid;
    [|left; unfold Promise.run, updateFriends; cbn; by rewrite Hvalid].
  destruct (validateUserField_friends _ Hvalid) as (a & items & -> & _).
  destruct action as [|action|];
    [left; unfold Promise.run, updateFriends; cbn; by rewrite Hvalid| |
     left; unfold Promise.run, updateFriends; cbn; by rewrite Hvalid].
  destruct (decide (action ∈ ["add"; "delete"])) as [Haction|Haction];
    [|left; unfold Promise.run, updateFriends;
      cbn [params_id body_friends query_action]; rewrite Hvalid;
      by rewrite (bool_decide_eq_false_2 _ Haction)].
  destruct (Bson.castObjectId uid) as [oid|] eqn:Hcast;
    [|left; unfold Promise.run, updateFriends;
      cbn [params_id body_friends query_action]; rewrite Hvalid;
      rewrite (bool_decide_eq_true_2 _ Haction); cbn [negb];
      unfold Promise.catch, User_findByIdCast; by rewrite Hcast].
  destruct (Mongoose.findById user_id oid (users (db w))) as [u|] eqn:Hu;
    [|left; unfold Promise.run, updateFriends;
      cbn [params_id body_friends query_action]; rewrite Hvalid;
      rewrite (bool_decide_eq_true_2 _ Haction); cbn [negb];
      unfold Promise.catch, User_findByIdCast;
      rewrite Hcast, run_then_findById; cbn [fst db]; by rewrite Hu].
  destruct (validated_candidates uid _ Hvalid) as (oids & Hoids & _).
  destruct (friendsModified (db w) uid (a :: items) oids action u) eqn:Hmod.
  - right. by exists uid, (a :: items), action, oid, oids, u.
  - left. rewrite (updateFriends_valid_run w uid oid _ oids action u) by done.
    cbn zeta. by rewrite Hmod.
Qed.

Lemma save_set_friends_found w uid u F :
  Mongoose.findById user_id uid (users (db w)) = Some u ->
  Mongoose.findById user_id uid
    (users (db (withUsers (Mongoose.save user_id (set_friends F u) (users (db w))) w)))
  = Some (set_friends F u).
Proof.
  intros Hu. pose proof (findById_Some _ _ _ _ Hu) as [Hid _].
  cbn [withUsers db users]. by eapply findById_save.
Qed.

(** Whatever the request, the world after the handler is the world before
    it, or the world before it with the document the path id is cast to
    re-saved with another friends array. *)
Lemma updateFriends_world w req :
  (Promise.run (updateFriends req) w).1 = w
  \/ exists oid u F,
       Bson.castObjectId (params_id req) = Some oid
       /\ Mongoose.findById user_id oid (users (db w)) = Some u
       /\ (Promise.run (updateFriends req) w).1
          = withUsers (Mongoose.save user_id (set_friends F u) (users (db w))) w.
Proof.
  destruct (updateFriends_cases w req)
    as [?|(uid & ids & action & oid & oids & u & -> & Hvalid & Haction & Hcast
           & Hoids & Hu & Hmod)]; [by left|].
  right. exists oid, u, (assignedFriends (db w) uid ids oids action u).
  split; [done|]. split; [done|].
  rewrite (updateFriends_valid_run w uid oid ids oids action u) by done.
  cbn zeta. by rewrite Hmod.
Qed.

Lemma assignedFriends_add d uid ids oids u :
  NoDup (assignedFriends d uid ids oids "add" u)
  /\ forall x,
       x ∈ assignedFriends d uid ids oids "add" u
       <-> (x ∈ friends u /\ is_Some (Mongoose.findById user_id x (users d)))
           \/ (x ∈ oids /\ is_Some (Mongoose.findById user_id x (users d))).
Proof.
  unfold assignedFriends. rewrite decide_False by done.
  match goal with |- context [Js.Set_of ?l] =>
    destruct (Set_of_spec l) as [Hnd Hin] end.
  split; [done|]. intros x.
  rewrite Hin, elem_of_app, populate_friends_ids, found_ids. tauto.
Qed.

Lemma assignedFriends_delete d uid ids oids u x :
  x ∈ assignedFriends d uid ids oids "delete" u
  <-> (x ∈ friends u /\ is_Some (Mongoose.findById user_id x (users d)))
      /\ ~ (JsString x ∈ ids /\ x ≠ uid).
Proof.
  unfold assignedFriends, keptFriends. rewrite decide_True by done.
  rewrite list_elem_of_fmap. split.
  - intros (v & -> & [Hkeep Hv]%list_elem_of_filter).
    rewrite candidateIds_spec in Hkeep. split; [|done].
    apply populate_friends_ids, list_elem_of_fmap. by exists v.
  - intros [(v & -> & Hv)%populate_friends_ids%list_elem_of_fmap Hkeep].
    exists v. split; [done|]. apply list_elem_of_filter.
    by rewrite candidateIds_spec.
Qed.

Lemma assignedFriends_stored d uid ids oids action u x :
  action ∈ ["add"; "delete"] ->
  x ∈ assignedFriends d uid ids oids action u ->
  is_Some (Mongoose.findById user_id x (users d)).
Proof.
  intros [->|[->|[]%elem_of_nil]%elem_of_cons]%elem_of_cons.
  - intros [[_ ?]|[_ ?]]%assignedFriends_add; done.
  - intros [[_ ?] _]%assignedFriends_delete. done.
Qed.

(** Populating the ids of populated documents gives those documents. *)
Lemma populateMany_idem {A} (key : A -> ObjectId) coll (ids : list ObjectId) :
  Mongoose.populateMany key coll (key <$> Mongoose.populateMany key coll ids)
  = Mongoose.populateMany key coll ids.
Proof.
  unfold Mongoose.populateMany. induction ids as [|id ids IH]; [done|].
  cbn [omap list_omap].
  destruct (Mongoose.findById key id coll) as [d|] eqn:E; [|exact IH].
  rewrite fmap_cons. cbn [omap list_omap].
  apply findById_Some in E as E'. destruct E' as [-> _]. by rewrite E, IH.
Qed.

(** When the assignment does not mark the path modified, the assigned ids
    resolve to the documents the stored ids resolve to. *)
Lemma unmodified_populate d uid ids oids action u :
  action ∈ ["add"; "delete"] ->
  friendsModified d uid ids oids action u = false ->
  populate_friends d (set_friends (assignedFriends d uid ids oids action u) u)
  = populate_friends d u.
Proof.
  unfold friendsModified, populate_friends at 1. cbn [set_friends friends].
  intros [->|[->|[]%elem_of_nil]%elem_of_cons]%elem_of_cons.
  - rewrite decide_False by done. intros Hnil%bool_decide_eq_false.
    apply dec_stable in Hnil. rewrite Hnil. cbn.
    destruct (populate_friends d u) as [|v vs] eqn:Hpop; [done|].
    assert (Hv : user_id v ∈ assignedFriends d uid ids oids "add" u).
    { apply assignedFriends_add. left. apply populate_friends_ids.
      rewrite Hpop. apply list_elem_of_here. }
    rewrite Hnil in Hv. by apply elem_of_nil in Hv.
  - rewrite decide_True by done. intros Hkept%bool_decide_eq_false.
    apply dec_stable in Hkept. unfold assignedFriends.
    rewrite decide_True by done. rewrite Hkept. apply populateMany_idem.
Qed.

Lemma filter_none {A} (P : A -> Prop) `{!forall x, Decision (P x)} (l : list A) :
  (forall x, x ∈ l -> ~ P x) -> filter P l = [].
Proof.
  induction l as [|x l IH]; intros Hnone; [done|].
  rewrite filter_cons_False by (apply Hnone, list_elem_of_here).
  apply IH. intros y Hy. by apply Hnone, list_elem_of_further.
Qed.

(** What [add] leaves in the store. *)
Lemma storedFriends_add d uid ids oids u :
  let stored x := is_Some (Mongoose.findById user_id x (users d)) in
  let F := storedFriends d uid ids oids "add" u in
  (forall x, stored x -> (x ∈ F <-> x ∈ friends u \/ x ∈ oids))
  /\ (forall x, x ∈ F -> x ∈ friends u \/ (x ∈ oids /\ stored x))
  /\ NoDup (filter (fun x => is_Some (Mongoose.findById user_id x (users d))) F).
Proof.
  intros stored F. subst F. unfold storedFriends.
  destruct (assignedFriends_add d uid ids oids u) as [Hnd Hin].
  destruct (friendsModified d uid ids oids "add" u) eqn:Hmod.
  - split; [|split].
    + intros x Hx. rewrite Hin. subst stored. tauto.
    + intros x Hx%Hin. subst stored. tauto.
    + by apply NoDup_filter.
  - unfold friendsModified in Hmod. rewrite decide_False in Hmod by done.
    apply bool_decide_eq_false, dec_stable in Hmod.
    assert (Hnone : forall x, ~ ((x ∈ friends u /\ stored x) \/ (x ∈ oids /\ stored x))).
    { intros x Hx%Hin. rewrite Hmod in Hx. by apply elem_of_nil in Hx. }
    split; [|split].
    + intros x Hx. split; [tauto|]. intros [?|?]; exfalso; apply (Hnone x); tauto.
    + tauto.
    + rewrite filter_none; [apply NoDup_nil_2|].
      intros x Hx Hs. apply (Hnone x). left. done.
Qed.

(** What [delete] leaves in the store. *)
Lemma storedFriends_delete d uid ids oids u :
  let stored x := is_Some (Mongoose.findById user_id x (users d)) in
  let F := storedFriends d uid ids oids "delete" u in
  (forall x, stored x ->
             (x ∈ F <-> x ∈ friends u /\ ~ (JsString x ∈ ids /\ x ≠ uid)))
  /\ (forall x, x ∈ F -> x ∈ friends u).
Proof.
  intros stored F. subst F. unfold storedFriends.
  destruct (friendsModified d uid ids oids "delete" u) eqn:Hmod.
  - split.
    + intros x Hx. rewrite assignedFriends_delete. subst stored. tauto.
    + intros x Hx%assignedFriends_delete. tauto.
  - unfold friendsModified in Hmod. rewrite decide_True in Hmod by done.
    apply bool_decide_eq_false, dec_stable in Hmod.
    split; [|done]. intros x Hx. split; [|tauto]. intros Hfr. split; [done|].
    assert (Hin : x ∈ user_id <$> keptFriends d uid ids u).
    { rewrite Hmod. by apply populate_friends_ids. }
    apply (assignedFriends_delete d uid ids oids u x).
    unfold assignedFriends. by rewrite decide_True.
Qed.

Lemma filter_same {A} (P : A -> Prop) `{!forall x, Decision (P x)} (l : list A) :
  filter P l = l <-> forall x, x ∈ l -> P x.
Proof.
  split; [|apply filter_all].
  intros Heq x Hx. rewrite <- Heq in Hx. by apply list_elem_of_filter in Hx as [? _].
Qed.

(** [add] marks the friends modified unless neither an existing friend
    nor a candidate belongs to a stored identity. *)
Lemma friendsModified_add d uid ids oids u :
  friendsModified d uid ids oids "add" u = true
  <-> exists x, is_Some (Mongoose.findById user_id x (users d))
                /\ (x ∈ friends u \/ x ∈ oids).
Proof.
  unfold friendsModified. rewrite decide_False by done. rewrite bool_decide_eq_true.
  destruct (assignedFriends_add d uid ids oids u) as [_ Hin]. split.
  - destruct (assignedFriends d uid ids oids "add" u) as [|x l] eqn:E; [done|].
    intros _. exists x. destruct (Hin x) as [H _].
    destruct (H (list_elem_of_here _ _)); tauto.
  - intros (x & Hs & Hx) Hnil.
    assert (Hin' : x ∈ assignedFriends d uid ids oids "add" u) by (apply Hin; tauto).
    rewrite Hnil in Hin'. by apply elem_of_nil in Hin'.
Qed.

(** [delete] marks the friends modified exactly when a populated friend
    is literally among the candidates. *)
Lemma friendsModified_delete d uid ids oids u :
  friendsModified d uid ids oids "delete" u = true
  <-> exists x, is_Some (Mongoose.findById user_id x (users d))
                /\ x ∈ friends u /\ JsString x ∈ ids /\ x ≠ uid.
Proof.
  unfold friendsModified, keptFriends. rewrite decide_True by done.
  rewrite bool_decide_eq_true, filter_same. split.
  - rewrite <- Forall_forall. intros Hne%not_Forall_Exists; [|apply _].
    apply Exists_exists in Hne as (v & Hv & Hc). cbn in Hc.
    apply dec_stable, candidateIds_spec in Hc as [? ?].
    exists (user_id v).
    assert (Hid : user_id v ∈ user_id <$> populate_friends d u).
    { apply list_elem_of_fmap. by exists v. }
    apply populate_friends_ids in Hid as [? ?]. done.
  - intros (x & Hs & Hfr & Hc & Hne) Hall.
    assert (Hid : x ∈ user_id <$> populate_friends d u).
    { by apply populate_friends_ids. }
    apply list_elem_of_fmap in Hid as (v & -> & Hv).
    apply (Hall v Hv). by apply candidateIds_spec.
Qed.

(** What [add] leaves in the store, exactly, when it writes. *)
Lemma storedFriends_add_written d uid ids oids u :
  let stored x := is_Some (Mongoose.findById user_id x (users d)) in
  let F := storedFriends d uid ids oids "add" u in
  (exists x, stored x /\ (x ∈ friends u \/ x ∈ oids)) ->
  NoDup F /\ forall x, x ∈ F <-> stored x /\ (x ∈ friends u \/ x ∈ oids).
Proof.
  intros stored F Hex. subst F stored. unfold storedFriends.
  apply (friendsModified_add d uid ids oids u) in Hex. rewrite Hex.
  destruct (assignedFriends_add d uid ids oids u) as [Hnd Hin].
  split; [done|]. intros x. rewrite Hin. tauto.
Qed.

(** What [delete] leaves in the store, exactly. *)
Lemma storedFriends_delete_exact d uid ids oids u :
  let stored x := is_Some (Mongoose.findById user_id x (users d)) in
  let F := storedFriends d uid ids oids "delete" u in
  ((exists x, stored x /\ x ∈ friends u /\ JsString x ∈ ids /\ x ≠ uid) ->
   forall x, x ∈ F
             <-> stored x /\ x ∈ friends u /\ ~ (JsString x ∈ ids /\ x ≠ uid))
  /\ ((forall x, stored x -> x ∈ friends u -> ~ (JsString x ∈ ids /\ x ≠ uid)) ->
      F = friends u).
Proof.
  intros stored F. subst F stored. unfold storedFriends. split.
  - intros Hex. apply (friendsModified_delete d uid ids oids u) in Hex. rewrite Hex.
    intros x. rewrite assignedFriends_delete. tauto.
  - intros Hall.
    destruct (friendsModified d uid ids oids "delete" u) eqn:Hmod; [|done].
    apply friendsModified_delete in Hmod as (x & Hs & Hfr & Hc). exfalso.
    by apply (Hall x).
Qed.

Lemma set_friends_same u : set_friends (friends u) u = u.
Proof. by destruct u. Qed.

(** The outcome of a valid update in terms of the friends array the
    store holds afterwards. *)
Lemma updateFriends_stored_run w uid ids oids action u :
  validateUserField (JsArray ids) "friends" = true ->
  action ∈ ["add"; "delete"] ->
  Bson.canonical uid = true ->
  mapM castAtom (candidateIds uid ids) = Some oids ->
  Mongoose.findById user_id uid (users (db w)) = Some u ->
  let F := storedFriends (db w) uid ids oids action u in
  exists w',
    Promise.run (updateFriends (mkUpdateFriendsReq uid (JsArray ids) (QString action))) w
    = (w', [Respond 200
              (JsonFriends
                 (if decide (action = "delete") then "Friends deleted!"
                  else "Friends added!")
                 (populate_friends (db w') (set_friends F u)))])
    /\ Mongoose.findById user_id uid (users (db w')) = Some (set_friends F u)
    /\ user_id <$> users (db w') = user_id <$> users (db w).
Proof.
  intros Hvalid Haction Hcan Hoids Hu F. subst F.
  rewrite (updateFriends_valid_run w uid uid ids oids action u)
    by (done || by apply castObjectId_canonical).
  cbn zeta. unfold storedFriends.
  destruct (friendsModified (db w) uid ids oids action u) eqn:Hmod.
  - cbv iota. eexists. split; [done|].
    split; [by apply save_set_friends_found | apply save_keys].
  - cbv iota. exists w. rewrite set_friends_same. split; [|done].
    by rewrite unmodified_populate.
Qed.

(** C2, as amended. On a stored identity addressed by its id and a
    request that passes validation, with [stored] the ids of stored
    identities and [candidate] the ids that a candidate other than the
    literal path id is cast to.

    [add]: when an existing friend or a candidate is [stored], the
    friends of the target become the duplicate-free union of its existing
    friends that are [stored] and the candidates that are [stored]; in
    any case no id is among them that was not a friend before or a
    [stored] candidate.

    [delete]: when an existing [stored] friend is literally one of the
    candidates other than the path id, the friends of the target become
    its existing friends that are [stored] less those candidates;
    otherwise they stay exactly as they were.

    No other field of the target changes and the answer is 200 with the
    populated friends. *)
Theorem updateFriends_stores_resolved_union
    (w : World) (uid : string) (ids : list JsAtom) (action : string) (u : User) :
  validateUserField (JsArray ids) "friends" = true ->
  action ∈ ["add"; "delete"] ->
  Bson.canonical uid = true ->
  Mongoose.findById user_id uid (users (db w)) = Some u ->
  let stored x := is_Some (Mongoose.findById user_id x (users (db w))) in
  let candidate x :=
    exists c, JsString c ∈ ids /\ c ≠ uid /\ Bson.castObjectId c = Some x in
  let listed x := JsString x ∈ ids /\ x ≠ uid in
  exists F w',
    Promise.run (updateFriends (mkUpdateFriendsReq uid (JsArray ids) (QString action))) w
    = (w', [Respond 200
              (JsonFriends
                 (if decide (action = "delete") then "Friends deleted!"
                  else "Friends added!")
                 (populate_friends (db w') (set_friends F u)))])
    /\ Mongoose.findById user_id uid (users (db w')) = Some (set_friends F u)
    /\ (action = "add" ->
        ((exists x, stored x /\ (x ∈ friends u \/ candidate x)) ->
         NoDup F
         /\ forall x, x ∈ F <-> stored x /\ (x ∈ friends u \/ candidate x))
        /\ (forall x, x ∈ F -> x ∈ friends u \/ (candidate x /\ stored x)))
    /\ (action = "delete" ->
        ((exists x, stored x /\ x ∈ friends u /\ listed x) ->
         forall x, x ∈ F <-> stored x /\ x ∈ friends u /\ ~ listed x)
        /\ ((forall x, stored x -> x ∈ friends u -> ~ listed x) -> F = friends u)).
Proof.
  intros Hvalid Haction Hcan Hu stored candidate listed.
  destruct (validated_candidates uid ids Hvalid) as (oids & Hoids & Hcand).
  destruct (updateFriends_stored_run w uid ids oids action u)
    as (w' & Hrun & Hfound & _); [done..|].
  exists (storedFriends (db w) uid ids oids action u), w'.
  split; [exact Hrun|]. split; [exact Hfound|]. split; intros ->.
  - destruct (storedFriends_add (db w) uid ids oids u) as (_ & Hsub & _).
    split.
    + intros (x0 & Hs0 & Hx0).
      destruct (storedFriends_add_written (db w) uid ids oids u) as [Hnd Hin].
      { exists x0. split; [done|]. rewrite Hcand. exact Hx0. }
      split; [exact Hnd|]. intros x. rewrite (Hin x), Hcand. done.
    + intros x Hx. destruct (Hsub x Hx) as [?|[?%Hcand ?]]; [by left | by right].
  - apply storedFriends_delete_exact.
Qed.

Lemma updateFriends_stores_resolved_union_witness :
  exists F,
    Mongoose.findById user_id Friends.a
      (users (db (Promise.run
                    (updateFriends
                       (mkUpdateFriendsReq Friends.a
                          (JsArray
                             [JsString Friends.e; JsString Friends.c; JsString Friends.a])
                          (QString "add")))
                    Friends.world).1))
    = Some (set_friends F (Friends.mk Friends.a [Friends.b]))
    /\ NoDup F /\ Friends.b ∈ F /\ Friends.e ∈ F /\ (Friends.c ∉ F) /\ (Friends.a ∉ F).
Proof.
  destruct (updateFriends_stores_resolved_union Friends.world Friends.a
              [JsString Friends.e; JsString Friends.c; JsString Friends.a]
              "add" (Friends.mk Friends.a [Friends.b]))
    as (F & w' & Hrun & Hfound & Hadd & _);
    [reflexivity | apply list_elem_of_here | reflexivity | reflexivity |].
  destruct (Hadd eq_refl) as (Hwritten & Hsub).
  destruct Hwritten as [Hnd Hiff].
  { exists Friends.b. split; [by eexists|]. left. apply list_elem_of_here. }
  exists F. rewrite Hrun. split; [exact Hfound|]. split; [exact Hnd|].
  split; [|split; [|split]].
  - apply Hiff. split; [by eexists|]. left. apply list_elem_of_here.
  - apply Hiff. split; [by eexists|]. right. exists Friends.e.
    split; [apply list_elem_of_here|]. split; [done | reflexivity].
  - intros [[v Hv] _]%Hiff. vm_compute in Hv. discriminate.
  - intros [Ha|[(c & Hc & Hne & Hcast) _]]%Hsub.
    + by apply list_elem_of_singleton in Ha.
    + apply elem_of_cons in Hc as [[= ->]|Hc]; [vm_compute in Hcast; discriminate|].
      apply elem_of_cons in Hc as [[= ->]|Hc]; [vm_compute in Hcast; discriminate|].
      apply list_elem_of_singleton in Hc as [= ->]. done.
Defined.

(** C2, as worded, fails: A, whose only friend is B, adds the id [c] of no
    stored identity; the handler answers 200 and A's friends are still B
    alone, not the union with [c]. *)
Lemma updateFriends_add_not_union :
  Promise.run
    (updateFriends
       (mkUpdateFriendsReq Friends.a (JsArray [JsString Friends.c]) (QString "add")))
    Friends.world
  = (Friends.world,
     [Respond 200 (JsonFriends "Friends added!" [Friends.mk Friends.b [Friends.a]])])
  /\ ~ AsStated.bulkAddIsUnion Friends.world Friends.a [JsString Friends.c].
Proof.
  split; [vm_compute; reflexivity|].
  intros (u & u' & Hu & Hu' & _ & Hunion).
  vm_compute in Hu, Hu'. injection Hu as <-. injection Hu' as <-.
  destruct (Hunion Friends.c) as [_ Hin].
  cbn [friends] in Hin.
  assert (Hc : Friends.c ∈ [Friends.b]).
  { apply Hin. right. split; [apply list_elem_of_here | done]. }
  apply list_elem_of_singleton in Hc. done.
Qed.

(** Both actions start from the populated friends: when [add] writes, a
    friend id that resolves to no stored identity is dropped. *)
Example updateFriends_add_drops_unresolved_friend :
  let w := {| db := {| users := [Friends.mk Friends.a [Friends.c]; Friends.mk Friends.b []];
                       channels := []; servers := [] |};
              clients := ∅ |} in
  Mongoose.findById user_id Friends.a
    (users (db (Promise.run
                  (updateFriends
                     (mkUpdateFriendsReq Friends.a (JsArray [JsString Friends.b])
                        (QString "add"))) w).1))
  = Some (Friends.mk Friends.a [Friends.b]).
Proof. vm_compute. reflexivity. Qed.

(** A [delete] that filters no populated friend out writes nothing: the
    friend id [c] of no stored identity stays stored, although the answer
    lists B alone. *)
Example updateFriends_delete_nothing_writes_nothing :
  let w := {| db := {| users := [Friends.mk Friends.a [Friends.c; Friends.b];
                                 Friends.mk Friends.b []; Friends.mk Friends.e []];
                       channels := []; servers := [] |};
              clients := ∅ |} in
  Promise.run
    (updateFriends
       (mkUpdateFriendsReq Friends.a (JsArray [JsString Friends.e; JsString Friends.c])
          (QString "delete"))) w
  = (w, [Respond 200 (JsonFriends "Friends deleted!" [Friends.mk Friends.b []])]).
Proof. vm_compute. reflexivity. Qed.

(** The target's own id is removed from the candidates before either
    action: [delete] cannot remove it from the friends. *)
Example updateFriends_delete_keeps_own_id :
  let w := {| db := {| users := [Friends.mk Friends.a [Friends.a; Friends.b];
                                 Friends.mk Friends.b []];
                       channels := []; servers := [] |};
              clients := ∅ |} in
  Mongoose.findById user_id Friends.a
    (users (db (Promise.run
                  (updateFriends
                     (mkUpdateFriendsReq Friends.a
                        (JsArray [JsString Friends.a; JsString Friends.b])
                        (QString "delete"))) w).1))
  = Some (Friends.mk Friends.a [Friends.a]).
Proof. vm_compute. reflexivity. Qed.

(** The candidates are compared with the path id as texts and cast
    afterwards: the upper-case spelling of the target's own id is not
    filtered out, and [add] makes the target its own friend. An upper-case
    path id addresses the same identity. *)
Example updateFriends_case_of_ids :
  Mongoose.findById user_id Friends.a
    (users (db (Promise.run
                  (updateFriends
                     (mkUpdateFriendsReq Friends.a
                        (JsArray [JsString "AAAAAAAAAAAAAAAAAAAAAAAA"])
                        (QString "add"))) Friends.world).1))
  = Some (Friends.mk Friends.a [Friends.b; Friends.a])
  /\ Mongoose.findById user_id Friends.a
       (users (db (Promise.run
                     (updateFriends
                        (mkUpdateFriendsReq "AAAAAAAAAAAAAAAAAAAAAAAA"
                           (JsArray [JsString Friends.e])
                           (QString "add"))) Friends.world).1))
     = Some (Friends.mk Friends.a [Friends.b; Friends.e]).
Proof. split; vm_compute; reflexivity. Qed.

(** C9. On a stored identity and a valid [add] request the handler does
    not fail (it answers 200, Friends added). Every id among the target's
    friends afterwards was a friend before or is the id of a stored
    identity that a candidate, other than the literal path id, is cast
    to: the id of a candidate with no identity document, unless it was a
    friend already, is not stored, and the id of every such candidate
    with an identity document is. *)
Theorem updateFriends_add_drops_unknown
    (w : World) (uid : string) (ids : list JsAtom) (u : User) :
  validateUserField (JsArray ids) "friends" = true ->
  Bson.canonical uid = true ->
  Mongoose.findById user_id uid (users (db w)) = Some u ->
  let stored x := is_Some (Mongoose.findById user_id x (users (db w))) in
  let candidate x :=
    exists c, JsString c ∈ ids /\ c ≠ uid /\ Bson.castObjectId c = Some x in
  exists F w',
    Promise.run (updateFriends (mkUpdateFriendsReq uid (JsArray ids) (QString "add"))) w
    = (w', [Respond 200
              (JsonFriends "Friends added!"
                 (populate_friends (db w') (set_friends F u)))])
    /\ Mongoose.findById user_id uid (users (db w')) = Some (set_friends F u)
    /\ (forall x, x ∈ F -> x ∈ friends u \/ (candidate x /\ stored x))
    /\ (forall x, candidate x -> ~ stored x -> x ∉ friends u -> x ∉ F)
    /\ (forall x, candidate x -> stored x -> x ∈ F).
Proof.
  intros Hvalid Hcan Hu stored candidate.
  destruct (validated_candidates uid ids Hvalid) as (oids & Hoids & Hcand).
  destruct (updateFriends_stored_run w uid ids oids "add" u) as (w' & Hrun & Hfound & _);
    [done | apply list_elem_of_here | done..|].
  destruct (storedFriends_add (db w) uid ids oids u) as (Hiff & Hsub & _).
  exists (storedFriends (db w) uid ids oids "add" u), w'.
  split; [exact Hrun|]. split; [exact Hfound|].
  assert (Hsub' : forall x, x ∈ storedFriends (db w) uid ids oids "add" u ->
                            x ∈ friends u \/ (candidate x /\ stored x)).
  { intros x Hx. destruct (Hsub x Hx) as [?|[?%Hcand ?]]; [by left | by right]. }
  split; [exact Hsub'|]. split.
  - intros x Hx Hns Hnf [?|[_ ?]]%Hsub'; done.
  - intros x Hx Hs. apply (Hiff x Hs). right. by apply Hcand.
Qed.

Lemma updateFriends_add_drops_unknown_witness :
  exists F w',
    Promise.run
      (updateFriends
         (mkUpdateFriendsReq Friends.a
            (JsArray [JsString Friends.e; JsString Friends.c])
            (QString "add"))) Friends.world
    = (w', [Respond 200
              (JsonFriends "Friends added!"
                 (populate_friends (db w')
                    (set_friends F (Friends.mk Friends.a [Friends.b]))))])
    /\ (Friends.c ∉ F) /\ Friends.e ∈ F.
Proof.
  destruct (updateFriends_add_drops_unknown Friends.world Friends.a
              [JsString Friends.e; JsString Friends.c] (Friends.mk Friends.a [Friends.b]))
    as (F & w' & Hrun & _ & _ & Hdrop & Hkeep);
    [reflexivity | reflexivity | reflexivity |].
  exists F, w'. split; [exact Hrun|]. split.
  - apply Hdrop.
    + exists Friends.c. split; [apply list_elem_of_further, list_elem_of_here|].
      split; [done | reflexivity].
    + intros [v Hv]. vm_compute in Hv. discriminate.
    + intros Hc. by apply list_elem_of_singleton in Hc.
  - apply Hkeep; [|by eexists]. exists Friends.e.
    split; [apply list_elem_of_here|]. split; [done | reflexivity].
Defined.

(** C7. Whatever the request, the bulk friend update leaves the connection
    registry, the channels and the servers as they were, keeps the number
    of stored identities, and leaves every stored identity other than the
    one the path id is cast to, candidates included, exactly as it was:
    only the target's document is written. *)
Theorem updateFriends_writes_only_target (w : World) (req : UpdateFriendsReq) :
  let w' := (Promise.run (updateFriends req) w).1 in
  clients w' = clients w
  /\ channels (db w') = channels (db w)
  /\ servers (db w') = servers (db w)
  /\ length (users (db w')) = length (users (db w))
  /\ forall i v, users (db w) !! i = Some v ->
                 Bson.castObjectId (params_id req) ≠ Some (user_id v) ->
                 users (db w') !! i = Some v.
Proof.
  intros w'. subst w'.
  destruct (updateFriends_world w req) as [->|(oid & u & F & Hcast & Hu & ->)]; [done|].
  cbn [withUsers db users channels servers clients].
  split; [done|]. split; [done|]. split; [done|].
  split; [apply save_length|].
  intros i v Hi Hne. apply save_lookup_ne; [done|].
  apply findById_Some in Hu as [Hid _]. cbn [set_friends user_id]. congruence.
Qed.

(** The frame evaluated: B asks for A and E as friends; A and E, the
    candidates, are stored as they were. *)
Example updateFriends_frame_evaluated :
  users (db (Promise.run
               (updateFriends
                  (mkUpdateFriendsReq Friends.b
                     (JsArray [JsString Friends.a; JsString Friends.e])
                     (QString "add"))) Friends.world).1)
  = [Friends.mk Friends.a [Friends.b]; Friends.mk Friends.b [Friends.a; Friends.e];
     Friends.mk Friends.e []].
Proof. vm_compute. reflexivity. Qed.

(** C3. A request that fails either validation (the friends field is
    rejected by the validator, or the action is not a string, or is a
    string other than add and delete) is turned down before the store is
    read: the world is unchanged and the only effect is one error handed to
    [next]. That error carries no status code: the handler does not
    classify the failure as 422. *)
Theorem updateFriends_invalid_unclassified (w : World) (req : UpdateFriendsReq) :
  validateUserField (body_friends req) "friends" = false
  \/ (forall action, query_action req = QString action ->
                     action ∉ ["add"; "delete"]) ->
  exists msg,
    Promise.run (updateFriends req) w = (w, [Next (validationFailed msg)])
    /\ statusCode (validationFailed msg) = None
    /\ statusCode (validationFailed msg) ≠ Some 422%nat.
Proof.
  destruct req as [uid value action]. cbn [body_friends query_action].
  unfold Promise.run, updateFriends. cbn [params_id body_friends query_action].
  destruct (validateUserField value "friends") eqn:Hvalid; cbn [negb].
  - intros [?|Haction]; [done|].
    destruct action as [|action|]; [by eexists| |by eexists].
    rewrite bool_decide_eq_false_2 by (by apply Haction). by eexists.
  - intros _. by eexists.
Qed.

Lemma updateFriends_invalid_unclassified_witness :
  (exists msg,
     Promise.run
       (updateFriends (mkUpdateFriendsReq Friends.a (JsArray []) (QString "add")))
       Friends.world
     = (Friends.world, [Next (validationFailed msg)])
     /\ statusCode (validationFailed msg) = None
     /\ statusCode (validationFailed msg) ≠ Some 422%nat)
  /\ (exists msg,
        Promise.run
          (updateFriends
             (mkUpdateFriendsReq Friends.a (JsArray [JsString Friends.b]) QUndefined))
          Friends.world
        = (Friends.world, [Next (validationFailed msg)])
        /\ statusCode (validationFailed msg) = None
        /\ statusCode (validationFailed msg) ≠ Some 422%nat).
Proof.
  split.
  - apply (updateFriends_invalid_unclassified Friends.world
             (mkUpdateFriendsReq Friends.a (JsArray []) (QString "add"))).
    left. reflexivity.
  - apply (updateFriends_invalid_unclassified Friends.world
             (mkUpdateFriendsReq Friends.a (JsArray [JsString Friends.b]) QUndefined)).
    right. intros action. discriminate.
Defined.

(** The two failing shapes evaluated: an empty friends array, and a valid
    friends array with the action omitted. *)
Example updateFriends_invalid_evaluated :
  Promise.run
    (updateFriends (mkUpdateFriendsReq Friends.a (JsArray []) (QString "add")))
    Friends.world
  = (Friends.world,
     [Next {| err_name := "Error";
              message := "Validation failed, entered data is incorrect.";
              statusCode := None |}])
  /\ Promise.run
       (updateFriends
          (mkUpdateFriendsReq Friends.a (JsArray [JsString Friends.b]) QUndefined))
       Friends.world
     = (Friends.world,
        [Next {| err_name := "Error";
                 message := "Validation failed, `action` query parameter is required.";
                 statusCode := None |}]).
Proof. split; vm_compute; reflexivity. Qed.

End UpdateFriends.

(** ** Related channels *)

Section RelatedChannels.

(** C4. The handler answers 200 with an empty body, whoever is asked for:
    for a stored identity the channels it is invited to together with the
    channels of the servers it owns are fetched, but only printed; they
    never reach the response. *)
Theorem getRelatedChannels_empty_body (w : World) (uid : ObjectId) :
  Promise.run (getRelatedChannels uid) w
  = (w,
     Respond 200 NoBody
     :: match Mongoose.findById user_id uid (users (db w)) with
        | Some u =>
            [LogIds (invitesToChannels u);
             LogChannels
               (filter
                  (fun c =>
                     channel_id c ∈ invitesToChannels u
                     \/ serverId c
                          ∈ server_id <$> filter (fun s => owner s = uid) (servers (db w)))
                  (channels (db w)))]
        | None => []
        end).
Proof.
  unfold Promise.run, getRelatedChannels, res_end, Promise.emit, Promise.then_.
  cbn. destruct (Mongoose.findById user_id uid (users (db w))); reflexivity.
Qed.

(** In the scenario of the specification the channel C2 the identity is
    invited to and the channel C1 of the server it owns are found and
    printed while the response body stays empty. *)
Example getRelatedChannels_scenario :
  Promise.run (getRelatedChannels Ids.u) Scenario.world
  = (Scenario.world,
     [Respond 200 NoBody;
      LogIds [Ids.c2];
      LogChannels [mkChannel Ids.c1 Ids.s1; mkChannel Ids.c2 Ids.s2]]).
Proof. vm_compute. reflexivity. Qed.

End RelatedChannels.

(** ** Account deletion *)

Section DeleteUser.

Lemma deleteUser_run w x u :
  Mongoose.findById user_id x (users (db w)) = Some u ->
  Promise.run (deleteUser x) w
  = (withUsers (Mongoose.findByIdAndRemove user_id x (users (db w))) w,
     [Respond 200 (JsonInfo "Deleted user.")]).
Proof.
  intros Hu. unfold Promise.run, deleteUser, Promise.catch.
  rewrite run_then_findById. cbn [fst db]. rewrite Hu. reflexivity.
Qed.

Lemma findByIdAndRemove_gone {A} (key : A -> ObjectId) x (coll : list A) :
  NoDup (key <$> coll) ->
  Mongoose.findById key x (Mongoose.findByIdAndRemove key x coll) = None.
Proof.
  induction coll as [|d coll IH]; simpl; [done|].
  intros [Hd Hnd]%NoDup_cons. case_decide as Hx.
  - apply findById_None. intros d' Hd' Heq. apply Hd.
    rewrite Hx, <- Heq. apply list_elem_of_fmap. by exists d'.
  - simpl. rewrite decide_False by done. by apply IH.
Qed.

(** C5, as amended. Deleting the account of a stored identity answers 200
    and removes that identity's own document, nothing else: every other
    stored identity is kept exactly as it was, with whatever references to
    the deleted id its friends, invitesTo and invitesFrom hold; channels,
    servers and the connection registry are untouched; and when ids are
    unique the deleted id no longer resolves. *)
Theorem deleteUser_removes_only_own_document (w : World) (x : ObjectId) (u : User) :
  Mongoose.findById user_id x (users (db w)) = Some u ->
  exists w',
    Promise.run (deleteUser x) w = (w', [Respond 200 (JsonInfo "Deleted user.")])
    /\ users (db w') = Mongoose.findByIdAndRemove user_id x (users (db w))
    /\ channels (db w') = channels (db w)
    /\ servers (db w') = servers (db w)
    /\ clients w' = clients w
    /\ sublist (users (db w')) (users (db w))
    /\ (forall v, v ∈ users (db w) -> user_id v ≠ x -> v ∈ users (db w'))
    /\ (NoDup (user_id <$> users (db w)) ->
        Mongoose.findById user_id x (users (db w')) = None).
Proof.
  intros Hu. eexists. split; [by eapply deleteUser_run|].
  cbn [withUsers db users channels servers clients].
  repeat (split; [done|]).
  split; [apply findByIdAndRemove_sublist|].
  split; [intros v Hv Hne; by apply findByIdAndRemove_other|].
  apply findByIdAndRemove_gone.
Qed.

Lemma deleteUser_removes_only_own_document_witness :
  exists w',
    Promise.run (deleteUser Ids.u) Scenario.world
    = (w', [Respond 200 (JsonInfo "Deleted user.")])
    /\ Scenario.V ∈ users (db w')
    /\ Mongoose.findById user_id Ids.u (users (db w')) = None.
Proof.
  destruct (deleteUser_removes_only_own_document Scenario.world Ids.u Scenario.U)
    as (w' & Hrun & _ & _ & _ & _ & _ & Hkept & Hgone); [reflexivity|].
  exists w'. split; [exact Hrun|]. split.
  - apply Hkept; [apply list_elem_of_further, list_elem_of_here | done].
  - apply Hgone. vm_compute. repeat constructor; set_solver.
Defined.

(** C5, as worded, fails: after U's account is deleted, V is stored as
    before and still lists U among its friends, invitesTo and
    invitesFrom. *)
Lemma deleteUser_leaves_references :
  Promise.run (deleteUser Ids.u) Scenario.world
  = (withUsers [Scenario.V] Scenario.world, [Respond 200 (JsonInfo "Deleted user.")])
  /\ Ids.u ∈ friends Scenario.V
  /\ ~ AsStated.deleteCascades Scenario.world Ids.u.
Proof.
  split; [vm_compute; reflexivity|]. split; [apply list_elem_of_here|].
  intros Hcascade.
  destruct (Hcascade Scenario.V) as [Hfriends _].
  - rewrite (deleteUser_run _ _ Scenario.U) by reflexivity.
    vm_compute. apply list_elem_of_here.
  - apply Hfriends. apply list_elem_of_here.
Qed.

End DeleteUser.

(** ** Presence: login and logout *)

Section Presence.

Lemma save_set_availability_found (d : Db) uid u a :
  Mongoose.findById user_id uid (users d) = Some u ->
  Mongoose.findById user_id uid
    (Mongoose.save user_id (set_availability a u) (users d))
  = Some (set_availability a u).
Proof.
  intros Hu. pose proof (findById_Some _ _ _ _ Hu) as [Hid _].
  by eapply findById_save.
Qed.

(** C8. Logout of an authenticated, stored identity saves the identity
    with availability Offline and answers 200, whatever connections the
    registry holds (it is neither read nor changed) and whether or not
    closing the session reported an error; login of an authenticated,
    stored identity saves it with availability Online and answers 200 with
    the identity. *)
Theorem logout_forces_offline_login_sets_online
    (d : Db) (cs : gmap string AppSocket) (session : User) (u : User) :
  Mongoose.findById user_id (user_id session) (users d) = Some u ->
  let w := {| db := d; clients := cs |} in
  (forall err,
     exists w',
       Promise.run (logout {| req_user := Some session; logout_error := err |}) w
       = (w', SessionLogOut
                :: match err with Some e => [Next e] | None => [] end
                ++ [Respond 200 NoBody])
       /\ Mongoose.findById user_id (user_id session) (users (db w'))
          = Some (set_availability Offline u)
       /\ availability (set_availability Offline u) = Offline
       /\ clients w' = cs)
  /\ (exists w',
        Promise.run
          (login {| errors_isEmpty := true; authenticate := AuthUser session;
                    logIn_error := None |}) w
        = (w', [SessionLogIn (user_id session);
                Respond 200 (JsonUser (Some (userDTO (set_availability Online u))))])
        /\ Mongoose.findById user_id (user_id session) (users (db w'))
           = Some (set_availability Online u)
        /\ availability (set_availability Online u) = Online
        /\ clients w' = cs).
Proof.
  intros Hu w. split.
  - intros err.
    exists (withUsers (Mongoose.save user_id (set_availability Offline u) (users d)) w).
    split.
    + subst w. unfold Promise.run, logout. cbn [req_user logout_error].
      destruct err as [err|]; cbn; unfold Promise.catch at 1;
        rewrite run_then_findById; cbn [fst db]; rewrite Hu; reflexivity.
    + cbn [withUsers db users clients].
      split; [by eapply save_set_availability_found|]. done.
  - exists (withUsers (Mongoose.save user_id (set_availability Online u) (users d)) w).
    split.
    + subst w. unfold Promise.run, login. cbn. unfold Promise.catch at 1.
      rewrite run_then_findById. cbn [fst db]. rewrite Hu. reflexivity.
    + cbn [withUsers db users clients].
      split; [by eapply save_set_availability_found|]. done.
Qed.

Lemma logout_forces_offline_login_sets_online_witness :
  exists w',
    Promise.run (logout {| req_user := Some Scenario.U; logout_error := None |})
      Scenario.world
    = (w', [SessionLogOut; Respond 200 NoBody])
    /\ Mongoose.findById user_id Ids.u (users (db w'))
       = Some (set_availability Offline Scenario.U)
    /\ App.getClient "sock1" w' = Some (mkAppSocket "sock1" (Some Ids.u))
    /\ App.getClient "sock2" w' = Some (mkAppSocket "sock2" (Some Ids.u)).
Proof.
  destruct (logout_forces_offline_login_sets_online Scenario.store
              (clients Scenario.world) Scenario.U Scenario.U)
    as [Hlogout _]; [reflexivity|].
  destruct (Hlogout None) as (w' & Hrun & Hfound & _ & Hclients).
  exists w'. split; [exact Hrun|]. split; [exact Hfound|].
  unfold App.getClient. rewrite Hclients. split; reflexivity.
Defined.

(** C10. A logout request without an authenticated user leaves the world
    as it was and is answered 200, but the handler does not stop there: it
    goes on to read the id of the absent user and raises a TypeError. *)
Theorem logout_unauthenticated_raises (w : World) (err : option Error) :
  Promise.run (logout {| req_user := None; logout_error := err |}) w
  = (w,
     [Respond 200 (Text "OK");
      Raise {| err_name := "TypeError";
               message :=
                 "Cannot destructure property 'id' of 'req.user' as it is undefined.";
               statusCode := None |}]).
Proof. reflexivity. Qed.

End Presence.

(** * Further properties of the controller *)

(** ** Unknown ids *)

Section UnknownId.

Lemma chain_then_findUser {B} (uid : ObjectId) (k : option User -> Chain.t B) s :
  Chain.then_ (findUser uid) k s
  = k (Mongoose.findById user_id uid (users (db s.1))) s.
Proof. by destruct s. Qed.

Lemma updateFriends_not_found_run w uid ids action :
  validateUserField (JsArray ids) "friends" = true ->
  action ∈ ["add"; "delete"] ->
  Promise.run (updateFriends (mkUpdateFriendsReq uid (JsArray ids) (QString action))) w
  = match Bson.castObjectId uid with
    | None => (w, [Next (with500 castError)])
    | Some oid =>
        match Mongoose.findById user_id oid (users (db w)) with
        | None => (w, [Next (with500 couldNotFindUser)])
        | Some _ =>
            Promise.run
              (updateFriends (mkUpdateFriendsReq uid (JsArray ids) (QString action))) w
        end
    end.
Proof.
  intros Hvalid Haction.
  destruct (Bson.castObjectId uid) as [oid|] eqn:Hcast;
    [destruct (Mongoose.findById user_id oid (users (db w))) eqn:Hu; [done|]|];
    unfold Promise.run, updateFriends;
    cbn [params_id body_friends query_action]; rewrite Hvalid;
    rewrite (bool_decide_eq_true_2 _ Haction); cbn [negb];
    unfold Promise.catch, User_findByIdCast; rewrite Hcast; [|done].
  rewrite run_then_findById. cbn [fst db]. by rewrite Hu.
Qed.

Lemma deleteUser_not_found_run w x :
  Mongoose.findById user_id x (users (db w)) = None ->
  Promise.run (deleteUser x) w = (w, [Next (with500 couldNotFindUser)]).
Proof.
  intros Hu. unfold Promise.run, deleteUser, Promise.catch.
  rewrite run_then_findById. cbn [fst db]. by rewrite Hu.
Qed.

Lemma getUser_run w uid :
  Chain.run (getUser uid) w
  = (w, [match Mongoose.findById user_id uid (users (db w)) with
         | Some u => Json 200 (UserFetched "User fetched." (userDTO u))
         | None => ToNext (with500 couldNotFindUser)
         end]).
Proof.
  unfold Chain.run, getUser, Chain.catch. rewrite chain_then_findUser. cbn [fst db].
  by destruct (Mongoose.findById user_id uid (users (db w))).
Qed.

Lemma updateUser_run w req :
  Chain.run (updateUser req) w
  = match Bson.castObjectId (uu_id req) with
    | None => (w, [ToNext (with500 castError)])
    | Some oid =>
        match Mongoose.findById user_id oid (users (db w)) with
        | None => (w, [ToNext (with500 couldNotFindUser)])
        | Some u =>
            match applyBody req u with
            | None => (w, [ToNext (with500 bsonTypeError)])
            | Some u' =>
                (withUsers (Mongoose.save user_id u' (users (db w))) w,
                 [Json 200 (UserFetched "User updated!" (userDTO u'))])
            end
        end
    end.
Proof.
  unfold Chain.run, updateUser, Chain.catch at 1, findUserCast.
  destruct (Bson.castObjectId (uu_id req)) as [oid|]; [|done].
  rewrite chain_then_findUser. cbn [fst db].
  destruct (Mongoose.findById user_id oid (users (db w))) as [u|]; [|done].
  by destruct (applyBody req u).
Qed.

(** X1. The four handlers that first look the identity up by the id of
    the path ([getUser], [updateUser], [deleteUser], and [updateFriends]
    once its validations passed) treat an id that is written as object
    ids are read back and is not stored alike: the world is left as it
    was, nothing is answered, and the only effect is the error 'Could not
    find user.' handed to [next] with status 500 (the 404 of the source is
    commented out). *)
Theorem unknown_id_forwards_500 (w : World) (uid : string) :
  Bson.canonical uid = true ->
  Mongoose.findById user_id uid (users (db w)) = None ->
  let notFound :=
    {| err_name := "Error"; message := "Could not find user.";
       statusCode := Some 500%nat |} in
  Chain.run (getUser uid) w = (w, [ToNext notFound])
  /\ (forall req, uu_id req = uid ->
        Chain.run (updateUser req) w = (w, [ToNext notFound]))
  /\ Promise.run (deleteUser uid) w = (w, [Next notFound])
  /\ (forall ids action,
        validateUserField (JsArray ids) "friends" = true ->
        action ∈ ["add"; "delete"] ->
        Promise.run
          (updateFriends (mkUpdateFriendsReq uid (JsArray ids) (QString action))) w
        = (w, [Next notFound])).
Proof.
  intros Hcan%castObjectId_canonical Hu notFound. split; [|split; [|split]].
  - by rewrite getUser_run, Hu.
  - intros req <-. by rewrite updateUser_run, Hcan, Hu.
  - by apply deleteUser_not_found_run.
  - intros ids action Hvalid Haction.
    by rewrite updateFriends_not_found_run, Hcan, Hu.
Qed.

Lemma unknown_id_forwards_500_witness :
  Chain.run (getUser Friends.c) Friends.world
  = (Friends.world,
     [ToNext {| err_name := "Error"; message := "Could not find user.";
                statusCode := Some 500%nat |}])
  /\ Promise.run (deleteUser Friends.c) Friends.world
     = (Friends.world,
        [Next {| err_name := "Error"; message := "Could not find user.";
                 statusCode := Some 500%nat |}]).
Proof.
  destruct (unknown_id_forwards_500 Friends.world Friends.c)
    as (Hget & _ & Hdelete & _); [reflexivity | reflexivity |].
  split; [exact Hget | exact Hdelete].
Defined.

End UnknownId.

(** ** Repeating the bulk friend update *)

Section UpdateFriendsTwice.

Lemma populate_friends_saved_ids d (us : list User) (F : list ObjectId) :
  user_id <$> us = user_id <$> users d ->
  (forall x, x ∈ F -> is_Some (Mongoose.findById user_id x (users d))) ->
  user_id <$> Mongoose.populateMany user_id us F = F.
Proof.
  intros Hkeys Hstored. rewrite populateMany_keys. apply filter_all.
  intros x Hx. rewrite findById_is_Some, Hkeys, <- findById_is_Some. by apply Hstored.
Qed.

(** The friends array assigned by a second, identical update is the one
    the first update assigned and stored. *)
Lemma assignedFriends_again w uid ids oids action u :
  action ∈ ["add"; "delete"] ->
  let F := assignedFriends (db w) uid ids oids action u in
  let w1 := withUsers (Mongoose.save user_id (set_friends F u) (users (db w))) w in
  assignedFriends (db w1) uid ids oids action (set_friends F u) = F.
Proof.
  intros Haction F w1.
  assert (Hkeys : user_id <$> users (db w1) = user_id <$> users (db w)).
  { apply save_keys. }
  assert (Hpop : user_id <$> populate_friends (db w1) (set_friends F u) = F).
  { unfold populate_friends. cbn [set_friends friends].
    eapply populate_friends_saved_ids; [exact Hkeys |].
    intros x Hx. by eapply assignedFriends_stored. }
  apply elem_of_cons in Haction as [->|[->|[]%elem_of_nil]%elem_of_cons].
  - unfold assignedFriends at 1. rewrite decide_False by done.
    rewrite Hpop. destruct (assignedFriends_add (db w) uid ids oids u) as [Hnd Hin].
    apply Set_of_absorb; [exact Hnd|].
    intros x [Hx Hs]%found_ids. apply Hin. right. split; [done|].
    by rewrite findById_is_Some, <- Hkeys, <- findById_is_Some.
  - assert (Hf : forall L : list User,
               user_id <$> filter (fun friend =>
                                     JsString (user_id friend) ∉ candidateIds uid ids) L
               = filter (fun i => JsString i ∉ candidateIds uid ids) (user_id <$> L)).
    { intros L. by apply filter_ids. }
    unfold assignedFriends at 1, keptFriends. rewrite decide_True by done.
    rewrite Hf, Hpop. apply filter_all.
    intros x Hx. apply assignedFriends_delete in Hx as [_ Hx].
    rewrite candidateIds_spec. exact Hx.
Qed.

(** Whatever the request, a second run of the handler finds the world as
    the first left it and does what the first did. *)
Lemma updateFriends_twice w req :
  Promise.run (updateFriends req) (Promise.run (updateFriends req) w).1
  = Promise.run (updateFriends req) w.
Proof.
  destruct (updateFriends_cases w req)
    as [Hw|(uid & ids & action & oid & oids & u & -> & Hvalid & Haction & Hcast
            & Hoids & Hu & Hmod)]; [by rewrite Hw|].
  rewrite (updateFriends_valid_run w uid oid ids oids action u) by done.
  cbn zeta. rewrite Hmod. cbn [fst].
  pose proof (assignedFriends_again w uid ids oids action u Haction) as Hagain.
  cbn zeta in Hagain. revert Hagain.
  set (F := assignedFriends (db w) uid ids oids action u).
  set (w1 := withUsers (Mongoose.save user_id (set_friends F u) (users (db w))) w).
  intros Hagain.
  rewrite (updateFriends_valid_run w1 uid oid ids oids action (set_friends F u));
    [|done|done|done|done|by apply save_set_friends_found].
  cbn zeta. rewrite Hagain.
  change (set_friends F (set_friends F u)) with (set_friends F u).
  assert (Hw : withUsers (Mongoose.save user_id (set_friends F u) (users (db w1))) w1
               = w1).
  { unfold w1, withUsers. cbn [db users channels servers clients].
    by rewrite save_save. }
  rewrite Hw.
  by destruct (friendsModified (db w1) uid ids oids action (set_friends F u)).
Qed.

(** X2. The bulk friend update is idempotent: on a stored identity and a
    request that passes validation, sending the same request (add or
    delete) a second time leaves the store exactly as the first left it
    and is answered exactly as the first was. *)
Theorem updateFriends_idempotent
    (w : World) (uid : ObjectId) (ids : list JsAtom) (action : string) (u : User) :
  validateUserField (JsArray ids) "friends" = true ->
  action ∈ ["add"; "delete"] ->
  Mongoose.findById user_id uid (users (db w)) = Some u ->
  let req := mkUpdateFriendsReq uid (JsArray ids) (QString action) in
  Promise.run (updateFriends req) (Promise.run (updateFriends req) w).1
  = Promise.run (updateFriends req) w.
Proof. intros _ _ _ req. apply updateFriends_twice. Qed.

Lemma updateFriends_idempotent_witness :
  Promise.run (updateFriends Requests.addFriends)
    (Promise.run (updateFriends Requests.addFriends) Friends.world).1
  = Promise.run (updateFriends Requests.addFriends) Friends.world.
Proof.
  apply (updateFriends_idempotent Friends.world Friends.a
           [JsString Friends.e; JsString Friends.c] "add"
           (Friends.mk Friends.a [Friends.b]));
    [reflexivity | apply list_elem_of_here | reflexivity].
Defined.

End UpdateFriendsTwice.

(** ** Reading after deleting *)

Section AfterDelete.

Lemma findById_remove_ne {A} (key : A -> ObjectId) x y (coll : list A) :
  y ≠ x ->
  Mongoose.findById key y (Mongoose.findByIdAndRemove key x coll)
  = Mongoose.findById key y coll.
Proof.
  intros Hne. induction coll as [|d coll IH]; simpl; [done|].
  destruct (decide (key d = x)) as [Hx|Hx].
  - rewrite decide_False by congruence. done.
  - simpl. by rewrite IH.
Qed.

Lemma populateMany_remove {A} (key : A -> ObjectId) x (coll : list A)
    (ids : list ObjectId) :
  NoDup (key <$> coll) ->
  Mongoose.populateMany key (Mongoose.findByIdAndRemove key x coll) ids
  = filter (fun d => key d ≠ x) (Mongoose.populateMany key coll ids).
Proof.
  intros Hnd. unfold Mongoose.populateMany.
  induction ids as [|i ids IH]; [done|]. cbn [omap list_omap].
  destruct (decide (i = x)) as [->|Hne].
  - rewrite findByIdAndRemove_gone by done.
    destruct (Mongoose.findById key x coll) as [d|] eqn:E; [|done].
    apply findById_Some in E as [E _].
    rewrite filter_cons_False by (intros ?; done). done.
  - rewrite findById_remove_ne by done.
    destruct (Mongoose.findById key i coll) as [d|] eqn:E; [|done].
    apply findById_Some in E as [E _].
    rewrite filter_cons_True by congruence. by rewrite IH.
Qed.

Lemma getFriends_run w uid :
  Chain.run (getFriends uid) w
  = (w, match Mongoose.findById user_id uid (users (db w)) with
        | Some u =>
            [Json 200 (FriendsFetched "Friends fetched."
                         (userDTO <$> populate_friends (db w) u))]
        | None => []
        end).
Proof.
  unfold Chain.run, getFriends, Chain.catch. rewrite chain_then_findUser. cbn [fst db].
  by destruct (Mongoose.findById user_id uid (users (db w))).
Qed.

(** X3. Deleting is final for the deleted id: with unique ids, once the
    account of a stored identity was deleted, a second [deleteUser] of the
    same id changes nothing and forwards the 500 'Could not find user.'
    error instead of answering 200, and so does [getUser]. *)
Theorem deleteUser_then_unknown (w : World) (x : ObjectId) (u : User) :
  NoDup (user_id <$> users (db w)) ->
  Mongoose.findById user_id x (users (db w)) = Some u ->
  let w1 := (Promise.run (deleteUser x) w).1 in
  Promise.run (deleteUser x) w1 = (w1, [Next (with500 couldNotFindUser)])
  /\ Chain.run (getUser x) w1 = (w1, [ToNext (with500 couldNotFindUser)]).
Proof.
  intros Hnd Hu w1. subst w1. rewrite (deleteUser_run w x u Hu). cbn [fst].
  assert (Hgone : Mongoose.findById user_id x
            (users (db (withUsers
                          (Mongoose.findByIdAndRemove user_id x (users (db w))) w)))
          = None).
  { cbn [withUsers db users]. by apply findByIdAndRemove_gone. }
  split.
  - by apply deleteUser_not_found_run.
  - by rewrite getUser_run, Hgone.
Qed.

Lemma deleteUser_then_unknown_witness :
  Promise.run (deleteUser Ids.u) (Promise.run (deleteUser Ids.u) Scenario.world).1
  = ((Promise.run (deleteUser Ids.u) Scenario.world).1,
     [Next (with500 couldNotFindUser)])
  /\ Chain.run (getUser Ids.u) (Promise.run (deleteUser Ids.u) Scenario.world).1
     = ((Promise.run (deleteUser Ids.u) Scenario.world).1,
        [ToNext (with500 couldNotFindUser)]).
Proof.
  apply (deleteUser_then_unknown Scenario.world Ids.u Scenario.U); [|reflexivity].
  vm_compute. repeat constructor; set_solver.
Defined.

(** X4. What the others see after a deletion: with unique ids, after the
    account [x] was deleted every other identity is fetched by [getUser]
    exactly as before, and the friends [getFriends] answers for it are
    those answered before without [x], although [x] is still stored in
    its friends array. *)
Theorem deleteUser_then_reads (w : World) (x y : ObjectId) (u v : User) :
  NoDup (user_id <$> users (db w)) ->
  Mongoose.findById user_id x (users (db w)) = Some u ->
  Mongoose.findById user_id y (users (db w)) = Some v ->
  y ≠ x ->
  let w1 := (Promise.run (deleteUser x) w).1 in
  Mongoose.findById user_id y (users (db w1)) = Some v
  /\ Chain.run (getUser y) w1
     = (w1, [Json 200 (UserFetched "User fetched." (userDTO v))])
  /\ Chain.run (getFriends y) w1
     = (w1, [Json 200
               (FriendsFetched "Friends fetched."
                  (userDTO <$> filter (fun f => user_id f ≠ x)
                                      (populate_friends (db w) v)))])
  /\ Chain.run (getFriends y) w
     = (w, [Json 200
              (FriendsFetched "Friends fetched."
                 (userDTO <$> populate_friends (db w) v))]).
Proof.
  intros Hnd Hu Hv Hne w1. subst w1. rewrite (deleteUser_run w x u Hu). cbn [fst].
  assert (Hy : Mongoose.findById user_id y
            (users (db (withUsers
                          (Mongoose.findByIdAndRemove user_id x (users (db w))) w)))
          = Some v).
  { cbn [withUsers db users]. by rewrite findById_remove_ne. }
  split; [exact Hy|]. split; [|split].
  - by rewrite getUser_run, Hy.
  - rewrite getFriends_run, Hy. unfold populate_friends.
    cbn [withUsers db users]. by rewrite populateMany_remove.
  - by rewrite getFriends_run, Hv.
Qed.

Lemma deleteUser_then_reads_witness :
  Mongoose.findById user_id Ids.v
    (users (db (Promise.run (deleteUser Ids.u) Scenario.world).1))
  = Some Scenario.V
  /\ Ids.u ∈ friends Scenario.V
  /\ Chain.run (getFriends Ids.v) (Promise.run (deleteUser Ids.u) Scenario.world).1
     = ((Promise.run (deleteUser Ids.u) Scenario.world).1,
        [Json 200 (FriendsFetched "Friends fetched." [])])
  /\ Chain.run (getFriends Ids.v) Scenario.world
     = (Scenario.world,
        [Json 200 (FriendsFetched "Friends fetched." [userDTO Scenario.U])]).
Proof.
  destruct (deleteUser_then_reads Scenario.world Ids.u Ids.v Scenario.U Scenario.V)
    as (Hv & _ & Hafter & Hbefore);
    [vm_compute; repeat constructor; set_solver | reflexivity | reflexivity | done |].
  split; [exact Hv|]. split; [apply list_elem_of_here|].
  split; [exact Hafter | exact Hbefore].
Defined.

End AfterDelete.

(** ** More on login and logout *)

Section MorePresence.

Lemma login_success_run w session u :
  Mongoose.findById user_id (user_id session) (users (db w)) = Some u ->
  Promise.run
    (login {| errors_isEmpty := true; authenticate := AuthUser session;
              logIn_error := None |}) w
  = (withUsers (Mongoose.save user_id (set_availability Online u) (users (db w))) w,
     [SessionLogIn (user_id session);
      Respond 200 (JsonUser (Some (userDTO (set_availability Online u))))]).
Proof.
  intros Hu. unfold Promise.run, login. cbn. unfold Promise.catch at 1.
  rewrite run_then_findById. cbn [fst db]. by rewrite Hu.
Qed.

Lemma logout_success_run w session u err :
  Mongoose.findById user_id (user_id session) (users (db w)) = Some u ->
  Promise.run (logout {| req_user := Some session; logout_error := err |}) w
  = (withUsers (Mongoose.save user_id (set_availability Offline u) (users (db w))) w,
     SessionLogOut
       :: match err with Some e => [Next e] | None => [] end
       ++ [Respond 200 NoBody]).
Proof.
  intros Hu. unfold Promise.run, logout. cbn [req_user logout_error].
  destruct err as [err|]; cbn; unfold Promise.catch at 1;
    rewrite run_then_findById; cbn [fst db]; by rewrite Hu.
Qed.

(** X5. A login that is turned down writes nothing: when the field
    validation found errors, or passport reported an error or no user, or
    establishing the session failed, the world is left as it was, no
    session is opened, and the single effect is a 401 answer or the error
    handed to [next]. *)
Theorem login_rejected_changes_nothing (w : World) (req : LoginReq) :
  errors_isEmpty req = false
  \/ (forall session, authenticate req ≠ AuthUser session)
  \/ is_Some (logIn_error req) ->
  exists e,
    Promise.run (login req) w = (w, [e])
    /\ ((exists body, e = Respond 401 body) \/ (exists err, e = Next err)).
Proof.
  destruct req as [valid auth logInErr]. cbn [errors_isEmpty authenticate logIn_error].
  unfold Promise.run, login. cbn [errors_isEmpty authenticate logIn_error].
  destruct valid; cbn [negb].
  - destruct auth as [err|msg|session].
    + intros _. eexists. split; [reflexivity|]. right. by eexists.
    + intros _. eexists. split; [reflexivity|]. left. by eexists.
    + destruct logInErr as [err|].
      * intros _. eexists. split; [reflexivity|]. right. by eexists.
      * intros [?|[Hno|[? ?]]]; [done| |done]. by destruct (Hno session).
  - intros _. eexists. split; [reflexivity|]. left. by eexists.
Qed.

Lemma login_rejected_changes_nothing_witness :
  exists e,
    Promise.run
      (login {| errors_isEmpty := true;
                authenticate := AuthNoUser "Invalid email or password.";
                logIn_error := None |}) Scenario.world
    = (Scenario.world, [e])
    /\ ((exists body, e = Respond 401 body) \/ (exists err, e = Next err)).
Proof.
  apply (login_rejected_changes_nothing Scenario.world
           {| errors_isEmpty := true;
              authenticate := AuthNoUser "Invalid email or password.";
              logIn_error := None |}).
  right. left. intros session. discriminate.
Defined.

(** Whatever the request, the world after [login] or [logout] is the world
    before it, or differs by one save of the session's identity with the
    new availability. *)
Lemma login_world w req :
  (Promise.run (login req) w).1 = w
  \/ exists session u,
       authenticate req = AuthUser session
       /\ Mongoose.findById user_id (user_id session) (users (db w)) = Some u
       /\ (Promise.run (login req) w).1
          = withUsers
              (Mongoose.save user_id (set_availability Online u) (users (db w))) w.
Proof.
  destruct req as [valid auth logInErr].
  destruct valid; [|by left].
  destruct auth as [err|msg|session]; [by left | by left |].
  destruct logInErr as [err|]; [by left|].
  destruct (Mongoose.findById user_id (user_id session) (users (db w))) as [u|] eqn:Hu.
  - right. exists session, u. split; [done|]. split; [done|].
    by rewrite (login_success_run w session u Hu).
  - left. unfold Promise.run, login. cbn. unfold Promise.catch at 1.
    rewrite run_then_findById. cbn [fst db]. by rewrite Hu.
Qed.

Lemma logout_world w req :
  (Promise.run (logout req) w).1 = w
  \/ exists session u,
       req_user req = Some session
       /\ Mongoose.findById user_id (user_id session) (users (db w)) = Some u
       /\ (Promise.run (logout req) w).1
          = withUsers
              (Mongoose.save user_id (set_availability Offline u) (users (db w))) w.
Proof.
  destruct req as [[session|] err]; [|by left].
  destruct (Mongoose.findById user_id (user_id session) (users (db w))) as [u|] eqn:Hu.
  - right. exists session, u. split; [done|]. split; [done|].
    by rewrite (logout_success_run w session u err Hu).
  - left. unfold Promise.run, logout. cbn [req_user logout_error].
    destruct err as [err|]; cbn; unfold Promise.catch at 1;
      rewrite run_then_findById; cbn [fst db]; by rewrite Hu.
Qed.

(** X6. Whatever the request, [login] and [logout] write at most the
    availability of the session's identity: the registry, the channels
    and the servers are as before, no identity is added or removed, and
    every stored identity with another id than the session's is exactly
    as it was. *)
Theorem presence_writes_only_session_identity
    (w : World) (loginReq : LoginReq) (logoutReq : LogoutReq) :
  let frame (sessionId : ObjectId -> Prop) (w' : World) :=
    clients w' = clients w
    /\ channels (db w') = channels (db w)
    /\ servers (db w') = servers (db w)
    /\ user_id <$> users (db w') = user_id <$> users (db w)
    /\ forall i v, users (db w) !! i = Some v -> ~ sessionId (user_id v) ->
                   users (db w') !! i = Some v in
  frame (fun i => exists session,
                    authenticate loginReq = AuthUser session /\ user_id session = i)
        (Promise.run (login loginReq) w).1
  /\ frame (fun i => exists session,
                       req_user logoutReq = Some session /\ user_id session = i)
           (Promise.run (logout logoutReq) w).1.
Proof.
  intros frame.
  assert (Hsave : forall (P : ObjectId -> Prop) a session u,
             P (user_id session) ->
             Mongoose.findById user_id (user_id session) (users (db w)) = Some u ->
             frame P (withUsers
                        (Mongoose.save user_id (set_availability a u) (users (db w)))
                        w)).
  { intros P a session u HP Hu. unfold frame.
    cbn [withUsers db users channels servers clients].
    split; [done|]. split; [done|]. split; [done|].
    split; [apply save_keys|].
    intros i v Hi Hne. apply save_lookup_ne; [done|].
    apply findById_Some in Hu as [Hid _]. cbn [set_availability user_id].
    intros Heq. apply Hne. by rewrite Heq, Hid. }
  split.
  - destruct (login_world w loginReq) as [->|(session & u & Hauth & Hu & ->)];
      [by unfold frame|].
    eapply Hsave; [|exact Hu]. by exists session.
  - destruct (logout_world w logoutReq) as [->|(session & u & Hauth & Hu & ->)];
      [by unfold frame|].
    eapply Hsave; [|exact Hu]. by exists session.
Qed.

Lemma set_availability_twice a b u :
  set_availability b (set_availability a u) = set_availability b u.
Proof. reflexivity. Qed.

Lemma presence_run w online session u :
  Mongoose.findById user_id (user_id session) (users (db w)) = Some u ->
  (Promise.run (presence online session) w).1
  = withUsers
      (Mongoose.save user_id
         (set_availability (if online then Online else Offline) u) (users (db w))) w.
Proof.
  intros Hu. destruct online; unfold presence.
  - by rewrite (login_success_run w session u Hu).
  - by rewrite (logout_success_run w session u None Hu).
Qed.

(** X7. The last presence write wins: for a stored session identity, a
    successful login or logout that follows another successful login or
    logout leaves the store exactly as if only the second had happened;
    in particular logging in twice, or out twice, is the same as once,
    and a login followed by a logout leaves the identity Offline. *)
Theorem presence_last_write_wins
    (w : World) (session u : User) (first second : bool) :
  Mongoose.findById user_id (user_id session) (users (db w)) = Some u ->
  let w1 := (Promise.run (presence first session) w).1 in
  (Promise.run (presence second session) w1).1
  = (Promise.run (presence second session) w).1
  /\ Mongoose.findById user_id (user_id session)
       (users (db (Promise.run (presence second session) w1).1))
     = Some (set_availability (if second then Online else Offline) u).
Proof.
  intros Hu w1. subst w1.
  pose proof (findById_Some _ _ _ _ Hu) as [Hid _].
  rewrite (presence_run w first session u Hu).
  set (a := if first then Online else Offline).
  set (b := if second then Online else Offline).
  assert (Hu1 : Mongoose.findById user_id (user_id session)
            (users (db (withUsers
                          (Mongoose.save user_id (set_availability a u) (users (db w)))
                          w)))
          = Some (set_availability a u)).
  { cbn [withUsers db users]. by eapply findById_save. }
  rewrite (presence_run _ second session _ Hu1), (presence_run w second session u Hu).
  fold b. rewrite set_availability_twice.
  cbn [withUsers db users channels servers clients].
  rewrite save_override by done. split; [done|].
  by eapply findById_save.
Qed.

Lemma presence_last_write_wins_witness :
  Mongoose.findById user_id Ids.u
    (users (db (Promise.run (presence false Scenario.U)
                  (Promise.run (presence true Scenario.U) Scenario.world).1).1))
  = Some (set_availability Offline Scenario.U).
Proof.
  destruct (presence_last_write_wins Scenario.world Scenario.U Scenario.U true false)
    as [_ Hfound]; [reflexivity|].
  exact Hfound.
Defined.

End MorePresence.

(** ** The connection registry *)

Section Registry.

Lemma setClients_snoc writes i v w :
  setClients (writes ++ [(i, v)]) w = App.setClient i v (setClients writes w).
Proof. unfold setClients. by rewrite foldl_app. Qed.

Lemma connections_setClients sockets w :
  connections sockets w = setClients ((fun s => (socket_id s, s)) <$> sockets) w.
Proof.
  unfold connections, setClients. revert w.
  induction sockets as [|s sockets IH]; intros w; [done|]. simpl. by rewrite <- IH.
Qed.

(** X8. On ordinary keys the registry is last-write-wins and never
    forgets: after any sequence of [App.setClient] calls none of which
    writes [__proto__], [App.getClient] of an id that is not a name every
    object inherits gives the socket of the last call for that id, or
    what it gave before when there was none, so an id once registered
    stays registered; the store is not touched. Connections register each
    socket under its own id. *)
Theorem registry_last_write_wins
    (writes : list (string * AppSocket)) (sockets : list AppSocket)
    (w : World) (i : string) :
  "__proto__" ∉ writes.*1 ->
  "__proto__" ∉ socket_id <$> sockets ->
  i ∉ objectPrototypeKeys ->
  App.getClient i (setClients writes w)
  = match last (filter (fun p => p.1 = i) writes) with
    | Some p => Some p.2
    | None => App.getClient i w
    end
  /\ (is_Some (App.getClient i w) -> is_Some (App.getClient i (setClients writes w)))
  /\ db (setClients writes w) = db w
  /\ App.getClient i (connections sockets w)
     = match last (filter (fun s => socket_id s = i) sockets) with
       | Some s => Some s
       | None => App.getClient i w
       end.
Proof.
  intros _ _ _.
  assert (Hlookup : forall writes,
            App.getClient i (setClients writes w)
            = match last (filter (fun p => p.1 = i) writes) with
              | Some p => Some p.2
              | None => App.getClient i w
              end).
  { clear writes. intros writes.
    induction writes as [|[j v] writes IH] using rev_ind; [done|].
    rewrite setClients_snoc, filter_app. unfold App.getClient, App.setClient.
    cbn [clients]. destruct (decide (j = i)) as [->|Hne].
    - rewrite lookup_insert_eq, filter_cons_True by done.
      by rewrite filter_nil, last_snoc.
    - rewrite lookup_insert_ne, filter_cons_False by done.
      rewrite filter_nil, app_nil_r. exact IH. }
  split; [apply Hlookup|]. split; [|split].
  - intros Hw. rewrite Hlookup.
    by destruct (last (filter (fun p => p.1 = i) writes)).
  - induction writes as [|[j v] writes IH] using rev_ind; [done|].
    by rewrite setClients_snoc.
  - rewrite connections_setClients, Hlookup.
    assert (Hfilter : filter (fun p : string * AppSocket => p.1 = i)
                        ((fun s => (socket_id s, s)) <$> sockets)
                      = (fun s => (socket_id s, s))
                          <$> filter (fun s => socket_id s = i) sockets).
    { clear. induction sockets as [|s sockets IH]; [done|].
      rewrite fmap_cons. destruct (decide (socket_id s = i)).
      - rewrite !filter_cons_True by done. by rewrite fmap_cons, IH.
      - rewrite !filter_cons_False by done. exact IH. }
    rewrite Hfilter, fmap_last.
    by destruct (last (filter (fun s => socket_id s = i) sockets)).
Qed.

Lemma registry_last_write_wins_witness :
  App.getClient "sock1"
    (setClients [("sock1", mkAppSocket "sock1" None);
                 ("sock2", mkAppSocket "sock2" (Some Ids.u));
                 ("sock1", mkAppSocket "sock1" (Some Ids.v))]
       Scenario.world)
  = Some (mkAppSocket "sock1" (Some Ids.v))
  /\ is_Some (App.getClient "sock2" (connections [] Scenario.world)).
Proof.
  split.
  - destruct (registry_last_write_wins
                [("sock1", mkAppSocket "sock1" None);
                 ("sock2", mkAppSocket "sock2" (Some Ids.u));
                 ("sock1", mkAppSocket "sock1" (Some Ids.v))] []
                Scenario.world "sock1") as (Hlast & _);
      [apply (bool_decide_unpack _); vm_compute; exact I..|].
    rewrite Hlast. reflexivity.
  - destruct (registry_last_write_wins [] [] Scenario.world "sock2")
      as (_ & _ & _ & Hconn); [apply (bool_decide_unpack _); vm_compute; exact I..|].
    rewrite Hconn. by eexists.
Defined.

End Registry.

(** ** Reading identities and their relations *)

Section Reads.

Lemma findById_NoDup {A} (key : A -> ObjectId) (coll : list A) d :
  NoDup (key <$> coll) -> d ∈ coll -> Mongoose.findById key (key d) coll = Some d.
Proof.
  induction coll as [|x coll IH]; intros Hnd Hd; [by apply elem_of_nil in Hd|].
  rewrite fmap_cons in Hnd. apply NoDup_cons in Hnd as [Hx Hnd]. simpl.
  apply elem_of_cons in Hd as [->|Hd]; [by rewrite decide_True|].
  rewrite decide_False; [by apply IH|].
  intros Heq. apply Hx. rewrite Heq. apply list_elem_of_fmap. by exists d.
Qed.

Lemma getUsers_run w :
  Chain.run getUsers w
  = (w, [Json 200 (UsersFetched "Fetched users successfully."
                     (length (users (db w))) (userDTO <$> users (db w)))]).
Proof. by destruct w. Qed.

(** X9. The list and the single read agree: [getUsers] answers 200 with
    one entry per stored identity, in store order, and a count equal to
    the number of entries; with unique ids, [getUser] of the id of any
    entry answers 200 with that very entry, and every identity [getUser]
    can fetch is in the list. The store is not changed. *)
Theorem getUsers_agrees_with_getUser (w : World) :
  NoDup (user_id <$> users (db w)) ->
  exists fetched,
    Chain.run getUsers w
    = (w, [Json 200 (UsersFetched "Fetched users successfully."
                       (length fetched) fetched)])
    /\ dto_user_id <$> fetched = user_id <$> users (db w)
    /\ (forall dto, dto ∈ fetched ->
          Chain.run (getUser (dto_user_id dto)) w
          = (w, [Json 200 (UserFetched "User fetched." dto)]))
    /\ (forall uid dto,
          Chain.run (getUser uid) w = (w, [Json 200 (UserFetched "User fetched." dto)]) ->
          dto ∈ fetched).
Proof.
  intros Hnd. exists (userDTO <$> users (db w)).
  split; [by rewrite getUsers_run, length_fmap|].
  split; [by rewrite <- list_fmap_compose|]. split.
  - intros dto (v & -> & Hv)%list_elem_of_fmap. rewrite getUser_run.
    cbn [userDTO dto_user_id]. by rewrite (findById_NoDup user_id _ v).
  - intros uid dto. rewrite getUser_run.
    destruct (Mongoose.findById user_id uid (users (db w))) as [v|] eqn:Hv;
      [|by intros [=]].
    intros [= <-]. apply findById_Some in Hv as [_ Hv].
    apply list_elem_of_fmap. by exists v.
Qed.

Lemma getUsers_agrees_with_getUser_witness :
  exists fetched,
    Chain.run getUsers Friends.world
    = (Friends.world,
       [Json 200 (UsersFetched "Fetched users successfully." (length fetched) fetched)])
    /\ dto_user_id <$> fetched = [Friends.a; Friends.b; Friends.e].
Proof.
  destruct (getUsers_agrees_with_getUser Friends.world)
    as (fetched & Hrun & Hids & _);
    [vm_compute; repeat constructor; set_solver|].
  exists fetched. split; [exact Hrun | exact Hids].
Defined.

Lemma getInvitedToFriends_run w uid :
  Chain.run (getInvitedToFriends uid) w
  = (w, match Mongoose.findById user_id uid (users (db w)) with
        | Some u =>
            [Json 200
               (InvitedToFetched "Users invited to friends fetched."
                  (userDTO <$> Mongoose.populateMany user_id (users (db w))
                                 (invitesTo u)))]
        | None => []
        end).
Proof.
  unfold Chain.run, getInvitedToFriends, Chain.catch.
  rewrite chain_then_findUser. cbn [fst db].
  by destruct (Mongoose.findById user_id uid (users (db w))).
Qed.

Lemma getInvitedFromFriends_run w uid :
  Chain.run (getInvitedFromFriends uid) w
  = (w, match Mongoose.findById user_id uid (users (db w)) with
        | Some u =>
            [Json 200
               (InvitedFromFetched "Users invited to friends fetched."
                  (userDTO <$> Mongoose.populateMany user_id (users (db w))
                                 (invitesFrom u)))]
        | None => []
        end).
Proof.
  unfold Chain.run, getInvitedFromFriends, Chain.catch.
  rewrite chain_then_findUser. cbn [fst db].
  by destruct (Mongoose.findById user_id uid (users (db w))).
Qed.

Lemma populated_dtos (d : Db) (ids : list ObjectId) :
  let fetched := userDTO <$> Mongoose.populateMany user_id (users d) ids in
  dto_user_id <$> fetched
  = filter (fun x => is_Some (Mongoose.findById user_id x (users d))) ids
  /\ forall dto, dto ∈ fetched ->
       exists v, Mongoose.findById user_id (dto_user_id dto) (users d) = Some v
                 /\ dto = userDTO v.
Proof.
  intros fetched. subst fetched. split.
  - rewrite <- list_fmap_compose. apply (populateMany_keys user_id).
  - intros dto (v & -> & (x & _ & Hv)%list_elem_of_omap)%list_elem_of_fmap.
    exists v. split; [|done]. pose proof (findById_Some _ _ _ _ Hv) as [Hk _].
    cbn [userDTO dto_user_id]. by rewrite Hk.
Qed.

(** X10. For a stored identity, [getFriends], [getInvitedToFriends] and
    [getInvitedFromFriends] answer 200 with the identities behind its
    friends, invitesTo and invitesFrom arrays: the ids answered are the
    ids of the array that resolve to a stored identity, in the order of
    the array, each with the DTO of that stored identity; an id that
    resolves to nothing is left out without an error. The store is not
    changed. *)
Theorem relation_reads_answer_resolved (w : World) (uid : ObjectId) (u : User) :
  Mongoose.findById user_id uid (users (db w)) = Some u ->
  let resolved (ids : list ObjectId) (fetched : list DTOUser) :=
    dto_user_id <$> fetched
    = filter (fun x => is_Some (Mongoose.findById user_id x (users (db w)))) ids
    /\ forall dto, dto ∈ fetched ->
         exists v, Mongoose.findById user_id (dto_user_id dto) (users (db w)) = Some v
                   /\ dto = userDTO v in
  (exists fetched,
     Chain.run (getFriends uid) w
     = (w, [Json 200 (FriendsFetched "Friends fetched." fetched)])
     /\ resolved (friends u) fetched)
  /\ (exists fetched,
        Chain.run (getInvitedToFriends uid) w
        = (w, [Json 200 (InvitedToFetched "Users invited to friends fetched." fetched)])
        /\ resolved (invitesTo u) fetched)
  /\ (exists fetched,
        Chain.run (getInvitedFromFriends uid) w
        = (w, [Json 200
                 (InvitedFromFetched "Users invited to friends fetched." fetched)])
        /\ resolved (invitesFrom u) fetched).
Proof.
  intros Hu resolved. split; [|split]; eexists; (split; [|apply populated_dtos]).
  - by rewrite getFriends_run, Hu.
  - by rewrite getInvitedToFriends_run, Hu.
  - by rewrite getInvitedFromFriends_run, Hu.
Qed.

Lemma relation_reads_answer_resolved_witness :
  exists fetched,
    Chain.run (getInvitedToFriends Ids.v) Scenario.world
    = (Scenario.world,
       [Json 200 (InvitedToFetched "Users invited to friends fetched." fetched)])
    /\ dto_user_id <$> fetched = [Ids.u].
Proof.
  destruct (relation_reads_answer_resolved Scenario.world Ids.v Scenario.V)
    as (_ & (fetched & Hrun & Hids & _) & _); [reflexivity|].
  exists fetched. split; [exact Hrun|]. rewrite Hids. reflexivity.
Defined.

(** X11. Writing friends in bulk and reading them back: after a valid
    bulk update of a stored identity, [getFriends] answers exactly the
    identities the update's own answer lists, in the same order; after an
    add they include the stored identity of every candidate other than the
    literal path id, after a delete none of the candidates other than the
    path id. *)
Theorem updateFriends_then_getFriends
    (w : World) (uid : string) (ids : list JsAtom) (action : string) (u : User) :
  validateUserField (JsArray ids) "friends" = true ->
  action ∈ ["add"; "delete"] ->
  Bson.canonical uid = true ->
  Mongoose.findById user_id uid (users (db w)) = Some u ->
  exists w1 listed,
    Promise.run (updateFriends (mkUpdateFriendsReq uid (JsArray ids) (QString action))) w
    = (w1, [Respond 200
              (JsonFriends
                 (if decide (action = "delete") then "Friends deleted!"
                  else "Friends added!") listed)])
    /\ Chain.run (getFriends uid) w1
       = (w1, [Json 200 (FriendsFetched "Friends fetched." (userDTO <$> listed))])
    /\ (action = "add" ->
        forall c x, JsString c ∈ ids -> c ≠ uid -> Bson.castObjectId c = Some x ->
                    is_Some (Mongoose.findById user_id x (users (db w))) ->
                    x ∈ user_id <$> listed)
    /\ (action = "delete" ->
        forall x, JsString x ∈ ids -> x ≠ uid -> x ∉ user_id <$> listed).
Proof.
  intros Hvalid Haction Hcan Hu.
  destruct (validated_candidates uid ids Hvalid) as (oids & Hoids & Hcand).
  destruct (updateFriends_stored_run w uid ids oids action u)
    as (w1 & Hrun & Hfound & Hkeys); [done..|].
  set (F := storedFriends (db w) uid ids oids action u) in *.
  exists w1, (populate_friends (db w1) (set_friends F u)).
  split; [exact Hrun|]. split; [by rewrite getFriends_run, Hfound|].
  assert (Hstored : forall x, is_Some (Mongoose.findById user_id x (users (db w1)))
                              <-> is_Some (Mongoose.findById user_id x (users (db w)))).
  { intros x. by rewrite !findById_is_Some, Hkeys. }
  split; intros ->.
  - destruct (storedFriends_add (db w) uid ids oids u) as (Hiff & _).
    intros c x Hc Hne Hx Hs. apply populate_friends_ids. cbn [set_friends friends].
    split; [|by apply Hstored]. apply (Hiff x Hs). right. apply Hcand. eauto.
  - destruct (storedFriends_delete (db w) uid ids oids u) as (Hiff & _).
    intros x Hx Hne [HF Hs%Hstored]%populate_friends_ids.
    cbn [set_friends friends] in HF. apply (Hiff x Hs) in HF as [_ Hno].
    by apply Hno.
Qed.

Lemma updateFriends_then_getFriends_witness :
  exists w1 listed,
    Promise.run (updateFriends Requests.addFriends) Friends.world
    = (w1, [Respond 200 (JsonFriends "Friends added!" listed)])
    /\ Chain.run (getFriends Friends.a) w1
       = (w1, [Json 200 (FriendsFetched "Friends fetched." (userDTO <$> listed))])
    /\ Friends.e ∈ user_id <$> listed.
Proof.
  destruct (updateFriends_then_getFriends Friends.world Friends.a
              [JsString Friends.e; JsString Friends.c] "add"
              (Friends.mk Friends.a [Friends.b]))
    as (w1 & listed & Hrun & Hget & Hadd & _);
    [reflexivity | apply list_elem_of_here | reflexivity | reflexivity |].
  exists w1, listed. split; [exact Hrun|]. split; [exact Hget|].
  apply (Hadd eq_refl Friends.e);
    [apply list_elem_of_here | done | reflexivity | by eexists].
Defined.

(** After a [delete] that filters nothing out, the friend id of no stored
    identity is still stored, and [getFriends] lists B alone. *)
Example getFriends_after_delete_nothing :
  let w := {| db := {| users := [Friends.mk Friends.a [Friends.c; Friends.b];
                                 Friends.mk Friends.b []; Friends.mk Friends.e []];
                       channels := []; servers := [] |};
              clients := ∅ |} in
  let w1 :=
    (Promise.run
       (updateFriends
          (mkUpdateFriendsReq Friends.a (JsArray [JsString Friends.e])
             (QString "delete"))) w).1 in
  Mongoose.findById user_id Friends.a (users (db w1))
  = Some (Friends.mk Friends.a [Friends.c; Friends.b])
  /\ Chain.run (getFriends Friends.a) w1
     = (w1, [Json 200 (FriendsFetched "Friends fetched."
                         [userDTO (Friends.mk Friends.b [])])]).
Proof. split; vm_compute; reflexivity. Qed.

End Reads.

(** ** [updateUser] *)

Section UpdateUser.

Lemma relationAssigned_spec remove path cur body :
  match body with
  | None => relationAssigned remove path cur body = cur
  | Some ids =>
      NoDup (relationAssigned remove path cur body)
      /\ forall x, x ∈ relationAssigned remove path cur body
                   <-> if removes remove path then x ∈ cur /\ x ∉ ids
                       else x ∈ cur \/ x ∈ ids
  end.
Proof.
  destruct body as [ids|]; [|done]. unfold relationAssigned, relationStrings.
  destruct (removes remove path).
  - match goal with |- context [Js.Set_of ?l] =>
      destruct (Set_of_spec l) as [Hnd Hin] end.
    split; [done|]. intros x. rewrite Hin, list_elem_of_filter. tauto.
  - match goal with |- context [Js.Set_of ?l] =>
      destruct (Set_of_spec l) as [Hnd Hin] end.
    split; [done|]. intros x. by rewrite Hin, elem_of_app.
Qed.

Lemma Set_of_idemp {A} `{EqDecision A} (arr : list A) :
  Js.Set_of (Js.Set_of arr) = Js.Set_of arr.
Proof. apply Set_of_NoDup, Set_of_spec. Qed.

Lemma relationAssigned_idemp remove path cur body :
  relationAssigned remove path (relationAssigned remove path cur body) body
  = relationAssigned remove path cur body.
Proof.
  destruct body as [ids|]; [|done]. unfold relationAssigned, relationStrings.
  destruct (removes remove path).
  - rewrite <- Set_of_filter.
    rewrite (filter_all _ (filter _ cur)); [apply Set_of_idemp|].
    by intros x [? _]%list_elem_of_filter.
  - apply Set_of_absorb; [apply Set_of_spec|].
    intros x Hx. apply Set_of_spec, elem_of_app. by right.
Qed.

Lemma filter_not_elem_of_self (ids : list ObjectId) :
  filter (fun id => id ∉ ids) ids = [].
Proof. apply filter_none. intros x Hx Hno. by apply Hno. Qed.

Lemma relationAssigned_add_remove remove path cur body :
  removes remove path = true ->
  relationAssigned remove path (relationAssigned QUndefined path cur body) body
  = relationAssigned remove path cur body.
Proof.
  intros Hrem. destruct body as [ids|]; [|done].
  unfold relationAssigned, relationStrings. rewrite Hrem. cbn [removes].
  rewrite <- Set_of_filter, filter_app, filter_not_elem_of_self, app_nil_r.
  apply Set_of_idemp.
Qed.

Lemma default_default {A} (x : A) (o : option A) :
  default (default x o) o = default x o.
Proof. by destruct o. Qed.

Lemma forallb_canonical l :
  forallb Bson.canonical l = true <-> forall x, x ∈ l -> Bson.canonical x = true.
Proof.
  rewrite forallb_forall. split; intros H x Hx; apply H; by apply list_elem_of_In.
Qed.

(** Strings written as object ids are read back are converted to
    themselves. *)
Lemma mapM_cast_canonical l :
  (forall x, x ∈ l -> Bson.canonical x = true) -> mapM Bson.castObjectId l = Some l.
Proof.
  intros H. apply mapM_Some_2. induction l as [|y l IH]; constructor.
  - apply castObjectId_canonical, H, list_elem_of_here.
  - apply IH. intros x Hx. by apply H, list_elem_of_further.
Qed.

Lemma relationAssigned_elem remove path cur body x :
  x ∈ relationAssigned remove path cur body -> x ∈ cur \/ x ∈ default [] body.
Proof.
  intros Hx. pose proof (relationAssigned_spec remove path cur body) as Hspec.
  destruct body as [ids|]; [|left; by rewrite <- Hspec].
  destruct Hspec as [_ Hin]. apply Hin in Hx. cbn [default].
  destruct (removes remove path); tauto.
Qed.

Lemma relationPath_canonical remove path cur body :
  (forall x, x ∈ cur -> Bson.canonical x = true) ->
  (forall x, x ∈ default [] body -> Bson.canonical x = true) ->
  relationPath remove path cur body = Some (relationAssigned remove path cur body).
Proof.
  intros Hcur Hbody. destruct body as [ids|]; [|done].
  cbn [relationPath relationAssigned]. apply mapM_cast_canonical.
  intros x Hx.
  destruct (relationAssigned_elem remove path cur (Some ids) x Hx); auto.
Qed.

(** When the ids stored and the ids of the body are all written as
    object ids are read back, no conversion throws and the arrays
    assigned are the strings that went through the [Set]; they are again
    written that way. *)
Lemma applyBody_canonical req u :
  canonicalRelations u = true ->
  canonicalBody req = true ->
  applyBody req u = Some (assignedPaths req u)
  /\ canonicalRelations (assignedPaths req u) = true.
Proof.
  unfold canonicalRelations, canonicalBody. rewrite !forallb_canonical.
  unfold relationIds, bodyIds. intros Hu Hb.
  assert (Hu' : forall x, x ∈ invitesFrom u \/ x ∈ invitesTo u \/ x ∈ friends u
                          \/ x ∈ invitesToChannels u \/ x ∈ joinedChannels u ->
                          Bson.canonical x = true).
  { intros x Hx. apply Hu. rewrite !elem_of_app. tauto. }
  assert (Hb' : forall x, x ∈ default [] (uu_invitesFrom req)
                          \/ x ∈ default [] (uu_invitesTo req)
                          \/ x ∈ default [] (uu_friends req)
                          \/ x ∈ default [] (uu_invitesToChannels req)
                          \/ x ∈ default [] (uu_joinedChannels req) ->
                          Bson.canonical x = true).
  { intros x Hx. apply Hb. rewrite !elem_of_app. tauto. }
  split.
  - unfold applyBody.
    rewrite !relationPath_canonical by (intros x Hx; first [apply Hu'; tauto | apply Hb'; tauto]).
    reflexivity.
  - intros x. cbn [assignedPaths friends invitesTo invitesFrom invitesToChannels
                     joinedChannels]. rewrite !elem_of_app.
    intros [Hx|[Hx|[Hx|[Hx|Hx]]]];
      apply relationAssigned_elem in Hx as [Hx|Hx];
      first [apply Hu'; tauto | apply Hb'; tauto].
Qed.

Lemma applyBody_user_id req u u' : applyBody req u = Some u' -> user_id u' = user_id u.
Proof. unfold applyBody. intros H. simplify_option_eq. done. Qed.

(** X12. For a stored identity and a body whose ids are written as
    object ids are read back, [updateUser] stores and answers (200, 'User
    updated!') the identity with every path of the body assigned and every
    other path kept: the name is overwritten when given; each relationship
    array given is stored without duplicates and holds, when its path is
    named for removal, the previous ids that are not in the body, and
    otherwise the previous ids and the ids of the body, whether or not
    those belong to stored identities. Id and availability are kept. *)
Theorem updateUser_set_semantics (w : World) (req : UpdateUserReq) (u : User) :
  Bson.canonical (uu_id req) = true ->
  Mongoose.findById user_id (uu_id req) (users (db w)) = Some u ->
  canonicalRelations u = true ->
  canonicalBody req = true ->
  let assigned (path : string) (cur : list ObjectId) (body : option (list string))
               (res : list ObjectId) :=
    match body with
    | None => res = cur
    | Some ids =>
        NoDup res
        /\ forall x, x ∈ res <-> if removes (uu_remove req) path
                                 then x ∈ cur /\ x ∉ ids else x ∈ cur \/ x ∈ ids
    end in
  exists u' w',
    Chain.run (updateUser req) w
    = (w', [Json 200 (UserFetched "User updated!" (userDTO u'))])
    /\ Mongoose.findById user_id (uu_id req) (users (db w')) = Some u'
    /\ user_id u' = user_id u
    /\ availability u' = availability u
    /\ name u' = default (name u) (uu_name req)
    /\ assigned "friends" (friends u) (uu_friends req) (friends u')
    /\ assigned "invitesTo" (invitesTo u) (uu_invitesTo req) (invitesTo u')
    /\ assigned "invitesFrom" (invitesFrom u) (uu_invitesFrom req) (invitesFrom u')
    /\ assigned "invitesToChannels" (invitesToChannels u) (uu_invitesToChannels req)
         (invitesToChannels u')
    /\ assigned "joinedChannels" (joinedChannels u) (uu_joinedChannels req)
         (joinedChannels u').
Proof.
  intros Hcan%castObjectId_canonical Hu Hrel Hbody assigned.
  pose proof (findById_Some _ _ _ _ Hu) as [Hid _].
  destruct (applyBody_canonical req u Hrel Hbody) as [Happly _].
  exists (assignedPaths req u).
  exists (withUsers (Mongoose.save user_id (assignedPaths req u) (users (db w))) w).
  split; [by rewrite updateUser_run, Hcan, Hu, Happly|].
  split; [cbn [withUsers db users]; by eapply findById_save|].
  split; [done|]. split; [done|]. split; [done|].
  unfold assigned. cbn [assignedPaths friends invitesTo invitesFrom invitesToChannels
                          joinedChannels].
  repeat split; apply relationAssigned_spec.
Qed.

Lemma updateUser_set_semantics_witness :
  exists u' w',
    Chain.run
      (updateUser
         (mkUpdateUserReq Friends.a QUndefined None None None
            (Some [Friends.c; Friends.b; Friends.c]) None None)) Friends.world
    = (w', [Json 200 (UserFetched "User updated!" (userDTO u'))])
    /\ NoDup (friends u')
    /\ Friends.c ∈ friends u'.
Proof.
  destruct (updateUser_set_semantics Friends.world
              (mkUpdateUserReq Friends.a QUndefined None None None
                 (Some [Friends.c; Friends.b; Friends.c]) None None)
              (Friends.mk Friends.a [Friends.b]))
    as (u' & w' & Hrun & _ & _ & _ & _ & [Hnd Hin] & _);
    [reflexivity | reflexivity | reflexivity | reflexivity |].
  exists u', w'. split; [exact Hrun|]. split; [exact Hnd|].
  apply Hin. cbn. right. apply list_elem_of_here.
Defined.

(** The conversion to object ids after the [Set] of strings: the
    upper-case spelling of a stored id is another string, goes through
    the [Set] and is stored as the same id a second time. *)
Example updateUser_upper_case_stored_twice :
  Mongoose.findById user_id Friends.a
    (users (db (Chain.run (updateUser (Requests.addUpperCase Friends.a))
                  Friends.world).1))
  = Some (Friends.mk Friends.a [Friends.b; Friends.b]).
Proof. vm_compute. reflexivity. Qed.

(** X13. Whatever the request, [updateUser] writes only the document of
    the identity the path id is cast to: the registry, the channels and
    the servers are as before, no identity is added or removed, and every
    stored identity with another id is exactly as it was; in particular
    adding an id to someone's friends or invites writes nothing on the
    other side. *)
Theorem updateUser_writes_only_target (w : World) (req : UpdateUserReq) :
  let w' := (Chain.run (updateUser req) w).1 in
  clients w' = clients w
  /\ channels (db w') = channels (db w)
  /\ servers (db w') = servers (db w)
  /\ user_id <$> users (db w') = user_id <$> users (db w)
  /\ forall i v, users (db w) !! i = Some v ->
                 Bson.castObjectId (uu_id req) ≠ Some (user_id v) ->
                 users (db w') !! i = Some v.
Proof.
  intros w'. subst w'. rewrite updateUser_run.
  destruct (Bson.castObjectId (uu_id req)) as [oid|] eqn:Hcast; [|done].
  destruct (Mongoose.findById user_id oid (users (db w))) as [u|] eqn:Hu; [|done].
  destruct (applyBody req u) as [u'|] eqn:Happly; [|done].
  cbn [fst withUsers db users channels servers clients].
  split; [done|]. split; [done|]. split; [done|].
  split; [apply save_keys|].
  intros i v Hi Hne. apply save_lookup_ne; [done|].
  apply findById_Some in Hu as [Hid _]. apply applyBody_user_id in Happly.
  congruence.
Qed.

Lemma assignedPaths_idemp req u :
  assignedPaths req (assignedPaths req u) = assignedPaths req u.
Proof.
  unfold assignedPaths.
  cbn [user_id name availability friends invitesTo invitesFrom invitesToChannels
         joinedChannels].
  by rewrite default_default, !relationAssigned_idemp.
Qed.

(** X14. On ids written as object ids are read back [updateUser] is
    idempotent: for a stored identity, the same request sent a second
    time, whether it adds or removes, leaves the store exactly as the
    first left it and gets the same answer. *)
Theorem updateUser_idempotent (w : World) (req : UpdateUserReq) (u : User) :
  Bson.canonical (uu_id req) = true ->
  Mongoose.findById user_id (uu_id req) (users (db w)) = Some u ->
  canonicalRelations u = true ->
  canonicalBody req = true ->
  Chain.run (updateUser req) (Chain.run (updateUser req) w).1
  = Chain.run (updateUser req) w.
Proof.
  intros Hcan%castObjectId_canonical Hu Hrel Hbody.
  pose proof (findById_Some _ _ _ _ Hu) as [Hid _].
  destruct (applyBody_canonical req u Hrel Hbody) as [Happly Hrel'].
  destruct (applyBody_canonical req _ Hrel' Hbody) as [Happly' _].
  rewrite (updateUser_run w), Hcan, Hu, Happly. cbn [fst].
  rewrite updateUser_run, Hcan. cbn [withUsers db users].
  rewrite (findById_save user_id u (uu_id req) _ Hu (assignedPaths req u)) by done.
  rewrite Happly', assignedPaths_idemp.
  unfold withUsers. cbn [db users channels servers clients].
  by rewrite save_save.
Qed.

Lemma updateUser_idempotent_witness :
  Chain.run (updateUser Requests.removeFriend)
    (Chain.run (updateUser Requests.removeFriend) Friends.world).1
  = Chain.run (updateUser Requests.removeFriend) Friends.world.
Proof.
  apply (updateUser_idempotent Friends.world Requests.removeFriend
           (Friends.mk Friends.a [Friends.b])); reflexivity.
Defined.

(** Without that, it is not: E, who has no friends, sends the upper-case
    spelling of B's id twice; the first request stores B's id, the second
    stores it a second time. *)
Example updateUser_upper_case_not_idempotent :
  Mongoose.findById user_id Friends.e
    (users (db (Chain.run (updateUser (Requests.addUpperCase Friends.e))
                  Friends.world).1))
  = Some (Friends.mk Friends.e [Friends.b])
  /\ Mongoose.findById user_id Friends.e
       (users (db (Chain.run (updateUser (Requests.addUpperCase Friends.e))
                     (Chain.run (updateUser (Requests.addUpperCase Friends.e))
                        Friends.world).1).1))
     = Some (Friends.mk Friends.e [Friends.b; Friends.b]).
Proof. split; vm_compute; reflexivity. Qed.

Lemma assignedPaths_add_remove remove req u :
  (forall path, path ∈ relationPaths -> removes remove path = true) ->
  assignedPaths (withRemove remove req) (assignedPaths (withRemove QUndefined req) u)
  = assignedPaths (withRemove remove req) u.
Proof.
  intros Hrem. unfold assignedPaths, withRemove.
  cbn [user_id name availability friends invitesTo invitesFrom invitesToChannels
         joinedChannels uu_remove uu_name uu_friends uu_invitesTo uu_invitesFrom
         uu_invitesToChannels uu_joinedChannels].
  rewrite default_default.
  rewrite !relationAssigned_add_remove; [done|apply Hrem..]; unfold relationPaths;
    set_solver.
Qed.

(** X15. On ids written as object ids are read back, removing undoes
    adding: for a stored identity, a request that adds the ids of its body
    followed by the same request with every relationship path named for
    removal leaves the store exactly as the removal alone would have. *)
Theorem updateUser_add_then_remove
    (w : World) (req : UpdateUserReq) (remove : QueryValue) (u : User) :
  Bson.canonical (uu_id req) = true ->
  Mongoose.findById user_id (uu_id req) (users (db w)) = Some u ->
  canonicalRelations u = true ->
  canonicalBody req = true ->
  (forall path, path ∈ relationPaths -> removes remove path = true) ->
  (Chain.run (updateUser (withRemove remove req))
     (Chain.run (updateUser (withRemove QUndefined req)) w).1).1
  = (Chain.run (updateUser (withRemove remove req)) w).1.
Proof.
  intros Hcan%castObjectId_canonical Hu Hrel Hbody Hrem.
  pose proof (findById_Some _ _ _ _ Hu) as [Hid _].
  destruct (applyBody_canonical (withRemove QUndefined req) u Hrel Hbody)
    as [Hadd Hrel'].
  destruct (applyBody_canonical (withRemove remove req) _ Hrel' Hbody) as [Hboth _].
  destruct (applyBody_canonical (withRemove remove req) u Hrel Hbody) as [Hremove _].
  rewrite (updateUser_run w (withRemove QUndefined req)).
  cbn [withRemove uu_id]. rewrite Hcan, Hu.
  change (mkUpdateUserReq (uu_id req) QUndefined (uu_name req) (uu_invitesFrom req)
            (uu_invitesTo req) (uu_friends req) (uu_invitesToChannels req)
            (uu_joinedChannels req)) with (withRemove QUndefined req).
  rewrite Hadd. cbn [fst].
  rewrite !updateUser_run. cbn [withRemove uu_id withUsers db users].
  rewrite Hcan.
  rewrite (findById_save user_id u (uu_id req) _ Hu
             (assignedPaths (withRemove QUndefined req) u)) by done.
  rewrite Hu.
  change (mkUpdateUserReq (uu_id req) remove (uu_name req) (uu_invitesFrom req)
            (uu_invitesTo req) (uu_friends req) (uu_invitesToChannels req)
            (uu_joinedChannels req)) with (withRemove remove req).
  rewrite Hboth, Hremove. cbn [fst].
  rewrite assignedPaths_add_remove by done.
  unfold withUsers. cbn [db users channels servers clients].
  by rewrite save_override.
Qed.

Lemma updateUser_add_then_remove_witness :
  Mongoose.findById user_id Friends.a
    (users (db (Chain.run
                  (updateUser (withRemove (QArray relationPaths) Requests.addTwo))
                  (Chain.run (updateUser (withRemove QUndefined Requests.addTwo))
                     Friends.world).1).1))
  = Some (Friends.mk Friends.a []).
Proof.
  rewrite (updateUser_add_then_remove Friends.world Requests.addTwo
             (QArray relationPaths)
             (Friends.mk Friends.a [Friends.b]));
    [reflexivity | reflexivity | reflexivity | reflexivity | reflexivity |].
  intros path Hpath. unfold removes. by apply bool_decide_eq_true.
Defined.

(** X16. A single [remove] value is matched as a substring: when the
    query carries the one value invitesToChannels, the path invitesTo,
    contained in it, is taken for removal as well, so the ids of the
    body's invitesTo, written as object ids are read back, are taken out
    of the stored array instead of being added; given as a list of
    values, the same name leaves invitesTo an addition. *)
Theorem updateUser_remove_matches_substring
    (w : World) (req : UpdateUserReq) (u : User) (ids : list string) :
  Bson.canonical (uu_id req) = true ->
  Mongoose.findById user_id (uu_id req) (users (db w)) = Some u ->
  canonicalRelations u = true ->
  canonicalBody req = true ->
  uu_invitesTo req = Some ids ->
  (exists u',
     Mongoose.findById user_id (uu_id req)
       (users (db (Chain.run
                     (updateUser (withRemove (QString "invitesToChannels") req)) w).1))
     = Some u'
     /\ forall x, x ∈ ids -> x ∉ invitesTo u')
  /\ (exists u',
        Mongoose.findById user_id (uu_id req)
          (users (db (Chain.run
                        (updateUser (withRemove (QArray ["invitesToChannels"]) req))
                        w).1))
        = Some u'
        /\ forall x, x ∈ ids -> x ∈ invitesTo u').
Proof.
  intros Hcan%castObjectId_canonical Hu Hrel Hbody Hids.
  pose proof (findById_Some _ _ _ _ Hu) as [Hid _].
  assert (Hrun : forall remove,
            Chain.run (updateUser (withRemove remove req)) w
            = (withUsers (Mongoose.save user_id (assignedPaths (withRemove remove req) u)
                            (users (db w))) w,
               [Json 200 (UserFetched "User updated!"
                            (userDTO (assignedPaths (withRemove remove req) u)))])).
  { intros remove.
    destruct (applyBody_canonical (withRemove remove req) u Hrel Hbody) as [Happly _].
    rewrite updateUser_run. cbn [withRemove uu_id]. rewrite Hcan, Hu.
    change (mkUpdateUserReq (uu_id req) remove (uu_name req) (uu_invitesFrom req)
              (uu_invitesTo req) (uu_friends req) (uu_invitesToChannels req)
              (uu_joinedChannels req)) with (withRemove remove req).
    by rewrite Happly. }
  split; eexists; rewrite Hrun; cbn [fst withUsers db users];
    (split; [by eapply findById_save|]);
    cbn [assignedPaths invitesTo withRemove uu_remove uu_invitesTo]; rewrite Hids.
  - pose proof (relationAssigned_spec (QString "invitesToChannels") "invitesTo"
                  (invitesTo u) (Some ids)) as [_ Hin].
    intros x Hx [_ Hno]%Hin. done.
  - pose proof (relationAssigned_spec (QArray ["invitesToChannels"]) "invitesTo"
                  (invitesTo u) (Some ids)) as [_ Hin].
    intros x Hx. apply Hin. right. done.
Qed.

Lemma updateUser_remove_matches_substring_witness :
  exists u',
    Mongoose.findById user_id Ids.v
      (users (db (Chain.run
                    (updateUser
                       (withRemove (QString "invitesToChannels") Requests.inviteU))
                    Scenario.world).1))
    = Some u'
    /\ Ids.u ∈ invitesTo Scenario.V
    /\ (Ids.u ∉ invitesTo u').
Proof.
  destruct (updateUser_remove_matches_substring Scenario.world Requests.inviteU
              Scenario.V [Ids.u])
    as [(u' & Hfound & Hout) _];
    [reflexivity | reflexivity | reflexivity | reflexivity | reflexivity |].
  exists u'. split; [exact Hfound|]. split; [apply list_elem_of_here|].
  apply Hout, list_elem_of_here.
Defined.

(** X18. An id in the body that the driver cannot turn into an object id
    makes the handler fail as a whole when its path is an addition:
    whatever else the request carries, nothing is written, nothing is
    answered and one error with status 500 is handed to [next]. *)
Theorem updateUser_malformed_id_forwards_500
    (w : World) (req : UpdateUserReq) (ids : list string) (x : string) :
  uu_friends req = Some ids ->
  removes (uu_remove req) "friends" = false ->
  x ∈ ids ->
  Bson.castObjectId x = None ->
  exists err,
    Chain.run (updateUser req) w = (w, [ToNext err])
    /\ statusCode err = Some 500%nat.
Proof.
  intros Hids Hadd Hx Hcast. rewrite updateUser_run.
  destruct (Bson.castObjectId (uu_id req)) as [oid|]; [|by eexists].
  destruct (Mongoose.findById user_id oid (users (db w))) as [u|]; [|by eexists].
  assert (Hnone : applyBody req u = None).
  { assert (Hfr : relationPath (uu_remove req) "friends" (friends u) (uu_friends req)
                  = None).
    { rewrite Hids. cbn [relationPath]. apply mapM_None, Exists_exists.
      exists x. split; [|done]. unfold relationStrings. rewrite Hadd.
      apply Set_of_spec, elem_of_app. by right. }
    unfold applyBody. rewrite Hfr.
    destruct (relationPath _ "invitesFrom" _ _); [|done].
    by destruct (relationPath _ "invitesTo" _ _). }
  rewrite Hnone. by eexists.
Qed.

Lemma updateUser_malformed_id_forwards_500_witness :
  exists err,
    Chain.run (updateUser Requests.addMalformed) Friends.world
    = (Friends.world, [ToNext err])
    /\ statusCode err = Some 500%nat.
Proof.
  apply (updateUser_malformed_id_forwards_500 Friends.world Requests.addMalformed
           [Friends.e; "xyz"] "xyz");
    [reflexivity | reflexivity | apply list_elem_of_further, list_elem_of_here
    | reflexivity].
Defined.

End UpdateUser.

(** ** A bound on the related servers *)

Section RelatedServersBound.
Import RelatedServersSpec.



End RelatedServersBound.
